(** * Sanctuary API: backup upload, registration, identity proofs

    A shallow embedding of the Sanctuary API server
    ([api/src/routes/backups.ts], [api/src/db/index.ts]) and of the shared
    trust-level table ([shared/types]), with the properties of the backup,
    registration, proof and attestation-note paths. *)

From stdpp Require Import base gmap strings list pretty sorting.
From Stdlib Require Import ZArith QArith String Ascii Lqa.

Open Scope string_scope.
#[local] Set Warnings "-register-all".

(** ** JavaScript values as produced by [JSON.parse]

    A parsed JSON document.  Numbers are kept as rationals: every finite
    JavaScript number is one, and [JSON.parse] produces no other.  An object
    is the list of its members in source order. *)
Inductive json : Type :=
| JNull
| JBool (b : bool)
| JNum (n : Q)
| JStr (s : string)
| JArr (items : list json)
| JObj (members : list (string * json)).

(** A property read [o.k]; [None] is [undefined].  [JSON.parse] keeps the
    last of duplicated keys, so the last member named [k] is the one read. *)
Fixpoint lookup_member (k : string) (ms : list (string * json)) : option json :=
  match ms with
  | [] => None
  | (k', v) :: ms' =>
      match lookup_member k ms' with
      | Some w => Some w
      | None => if String.eqb k k' then Some v else None
      end
  end.

Definition member (o : option json) (k : string) : option json :=
  match o with
  | Some (JObj ms) => lookup_member k ms
  | _ => None
  end.

(** [typeof v] for a value read from a parsed document. *)
Definition js_typeof (v : option json) : string :=
  match v with
  | None => "undefined"
  | Some JNull => "object"
  | Some (JBool _) => "boolean"
  | Some (JNum _) => "number"
  | Some (JStr _) => "string"
  | Some (JArr _) => "object"
  | Some (JObj _) => "object"
  end.

(** [!v] on a value read from a parsed document. *)
Definition js_falsy (v : option json) : bool :=
  match v with
  | None | Some JNull => true
  | Some (JBool b) => negb b
  | Some (JNum n) => Qeq_bool n 0
  | Some (JStr s) => String.eqb s ""
  | Some (JArr _) | Some (JObj _) => false
  end.

Definition is_null (v : option json) : bool :=
  match v with Some JNull => true | _ => false end.

(** ** [validateBackupHeader] (routes/backups.ts)

    [None] is the source's [null] (valid), [Some msg] the error string. *)
Definition validateBackupHeader (header : option json) : option string :=
  if negb (String.eqb (js_typeof header) "object") || is_null header then
    Some "Backup header must be a JSON object"
  else if negb (String.eqb (js_typeof (member header "agent_id")) "string")
          || js_falsy (member header "agent_id") then
    Some "Missing or invalid field: agent_id (string)"
  else if negb (String.eqb (js_typeof (member header "backup_id")) "string")
          || js_falsy (member header "backup_id") then
    Some "Missing or invalid field: backup_id (string)"
  else if negb (String.eqb (js_typeof (member header "backup_seq")) "number") then
    Some "Missing or invalid field: backup_seq (number)"
  else if negb (String.eqb (js_typeof (member header "timestamp")) "number") then
    Some "Missing or invalid field: timestamp (number)"
  else if negb (String.eqb (js_typeof (member header "manifest_hash")) "string") then
    Some "Missing or invalid field: manifest_hash (string)"
  else if negb (String.eqb (js_typeof (member header "files")) "object")
          || is_null (member header "files") then
    Some "Missing or invalid field: files (object)"
  else if negb (String.eqb (js_typeof (member header "wrapped_keys")) "object")
          || is_null (member header "wrapped_keys") then
    Some "Missing or invalid field: wrapped_keys (object)"
  else if negb (String.eqb (js_typeof (member (member header "wrapped_keys") "recovery")) "string")
          || negb (String.eqb (js_typeof (member (member header "wrapped_keys") "recall")) "string") then
    Some "wrapped_keys must contain recovery and recall strings"
  else if negb (String.eqb (js_typeof (member header "signature")) "string")
          || js_falsy (member header "signature") then
    Some "Missing or invalid field: signature (string)"
  else None.

(** The string held by a member already checked to be a string. *)
Definition str_member (o : json) (k : string) : string :=
  match member (Some o) k with Some (JStr s) => s | _ => "" end.

(** [String.prototype.toLowerCase] on the ASCII letters. *)
Definition ascii_to_lower (c : ascii) : ascii :=
  let n := nat_of_ascii c in
  if (65 <=? n)%nat && (n <=? 90)%nat then ascii_of_nat (n + 32) else c.

Fixpoint to_lower (s : string) : string :=
  match s with
  | EmptyString => EmptyString
  | String c s' => String (ascii_to_lower c) (to_lower s')
  end.

(** ** Rows of the SQLite schema ([db/index.ts]) *)
Module DbUser.
Record t := mk { github_id : string; github_username : string;
                   github_created_at : string; created_at : Z }.
End DbUser.

Module DbAgent.
Record t := mk { agent_id : string; github_id : string; recovery_pubkey : string;
                   manifest_hash : string; manifest_version : Z;
                   registered_at : Z; status : string }.
End DbAgent.

Module DbHeartbeat.
Record t := mk { id : Z; agent_id : string; agent_timestamp : Z;
                   received_at : Z; signature : string }.
End DbHeartbeat.

Module DbBackup.
Record t := mk { id : string; agent_id : string; arweave_tx_id : string;
                   backup_seq : Z; agent_timestamp : Q; received_at : Z;
                   size_bytes : Z; manifest_hash : string }.
End DbBackup.

Module DbTrustScore.
Record t := mk { agent_id : string; score : Q; level : string;
                   unique_attesters : Z; computed_at : Z }.
End DbTrustScore.

Module DbAttestationNote.
Record t := mk { hash : string; content : string; created_at : Z }.
End DbAttestationNote.

(** The tables.  Tables keyed by a TEXT primary key are finite maps on that
    key; [heartbeats] and [backups] are kept in insertion order, which is
    the order in which the ORDER BY queries meet rows of equal sort key. *)
Record SanctuaryDb := mkDb {
  users : gmap string DbUser.t;
  agents : gmap string DbAgent.t;
  heartbeats : list DbHeartbeat.t;
  backups : list DbBackup.t;
  trust_scores : gmap string DbTrustScore.t;
  attestation_notes : gmap string DbAttestationNote.t
}.

Definition set_agents (db : SanctuaryDb) a :=
  mkDb (users db) a (heartbeats db) (backups db) (trust_scores db) (attestation_notes db).
Definition set_backups (db : SanctuaryDb) b :=
  mkDb (users db) (agents db) (heartbeats db) b (trust_scores db) (attestation_notes db).
Definition set_attestation_notes (db : SanctuaryDb) n :=
  mkDb (users db) (agents db) (heartbeats db) (backups db) (trust_scores db) n.

(** *** Users and agents *)
Definition getUser (db : SanctuaryDb) (githubId : string) : option DbUser.t :=
  users db !! githubId.

Definition getAgent (db : SanctuaryDb) (agentId : string) : option DbAgent.t :=
  agents db !! agentId.

Definition getAgentByGithubId (db : SanctuaryDb) (githubId : string) : option DbAgent.t :=
  head (filter (fun a => DbAgent.github_id a = githubId) (map snd (map_to_list (agents db)))).

(** INSERT INTO agents: [None] when SQLite raises (duplicate [agent_id] or
    [github_id], or a [github_id] missing from [users]). *)
Definition createAgent (db : SanctuaryDb) (agent : DbAgent.t) : option SanctuaryDb :=
  match getAgent db (DbAgent.agent_id agent), getAgentByGithubId db (DbAgent.github_id agent),
        getUser db (DbAgent.github_id agent) with
  | None, None, Some _ =>
      Some (set_agents db (<[DbAgent.agent_id agent := agent]> (agents db)))
  | _, _, _ => None
  end.

(** *** Backups *)

(** [SELECT * FROM backups WHERE agent_id = ? ORDER BY backup_seq DESC LIMIT 1]. *)
Definition latest_backup_step (agentId : string) (acc : option DbBackup.t) (b : DbBackup.t)
    : option DbBackup.t :=
  if String.eqb (DbBackup.agent_id b) agentId then
    match acc with
    | None => Some b
    | Some b0 => if (DbBackup.backup_seq b0 <? DbBackup.backup_seq b)%Z then Some b else acc
    end
  else acc.

Definition getLatestBackup (db : SanctuaryDb) (agentId : string) : option DbBackup.t :=
  fold_left (latest_backup_step agentId) (backups db) None.

Definition getBackupCount (db : SanctuaryDb) (agentId : string) : Z :=
  Z.of_nat (List.length (filter (fun b => DbBackup.agent_id b = agentId) (backups db))).

Definition getNextBackupSeq (db : SanctuaryDb) (agentId : string) : Z :=
  match getLatestBackup db agentId with
  | Some latest => (DbBackup.backup_seq latest + 1)%Z
  | None => 1%Z
  end.

(** INSERT INTO backups: [None] when SQLite raises (duplicate [id], or an
    [agent_id] missing from [agents]). *)
Definition createBackup (db : SanctuaryDb) (backup : DbBackup.t) : option SanctuaryDb :=
  if bool_decide (Exists (fun b => DbBackup.id b = DbBackup.id backup) (backups db)) then None
  else match getAgent db (DbBackup.agent_id backup) with
       | None => None
       | Some _ => Some (set_backups db (backups db ++ [backup]))
       end.

(** *** Heartbeats and trust scores *)

(** [SELECT * FROM heartbeats WHERE agent_id = ? ORDER BY received_at DESC LIMIT 1]. *)
Definition getLatestHeartbeat (db : SanctuaryDb) (agentId : string) : option DbHeartbeat.t :=
  fold_left (fun acc h =>
      if String.eqb (DbHeartbeat.agent_id h) agentId then
        match acc with
        | None => Some h
        | Some h0 => if (DbHeartbeat.received_at h0 <? DbHeartbeat.received_at h)%Z then Some h else acc
        end
      else acc) (heartbeats db) None.

Definition getTrustScore (db : SanctuaryDb) (agentId : string) : option DbTrustScore.t :=
  trust_scores db !! agentId.

(** *** Attestation notes *)

(** [INSERT OR IGNORE INTO attestation_notes]: keyed by [hash]. *)
Definition createAttestationNote (db : SanctuaryDb) (note : DbAttestationNote.t) : SanctuaryDb :=
  match attestation_notes db !! DbAttestationNote.hash note with
  | Some _ => db
  | None => set_attestation_notes db (<[DbAttestationNote.hash note := note]> (attestation_notes db))
  end.

Definition getAttestationNote (db : SanctuaryDb) (hash : string) : option DbAttestationNote.t :=
  attestation_notes db !! hash.

(** ** Configuration ([config.ts]), the fields the routes read *)
Record Config := mkConfig {
  port : Z;
  publicUrl : string;
  jwtSecret : string;
  contractAddress : string;
  chainId : Z;
  backupSizeLimit : Z
}.

(** [Math.ceil(a / b)] for [b > 0]. *)
Definition ceil_div (a b : Z) : Z := (- ((- a) / b))%Z.

(** ** POST /backups/upload ([backupRoutes])

    The [X-Backup-Header] request header, after
    [JSON.parse(Buffer.from(h, 'base64').toString('utf-8'))]: absent (or not a
    string), not decodable to JSON, or the parsed value. *)
Inductive BackupHeaderInput :=
| HeaderAbsent
| HeaderUndecodable
| HeaderDecoded (v : json).

(** One upload request.  [auth_agent_id] is [request.agentId] as set by the
    agent-auth pre-handler; [clock_check] and [clock_recv] are the two
    readings of [Math.floor(Date.now() / 1000)] (daily-limit check and
    [receivedAt]); [tx_uuid] and [backup_uuid] are the two [uuidv4()]. *)
Record UploadRequest := mkUploadRequest {
  auth_agent_id : string;
  x_backup_header : BackupHeaderInput;
  upload_body : option (list Byte.byte);
  clock_check : Z;
  clock_recv : Z;
  tx_uuid : string;
  backup_uuid : string
}.

(** The reply: an error status with its message, the 201 with its data,
    or an exception escaping the handler (Fastify then answers 500). *)
Inductive UploadReply :=
| UploadFailed (code : Z) (error : string)
| UploadAccepted (backup_id : string) (backup_seq : Z) (arweave_tx_id : string)
                 (size_bytes : Z) (received_at : Z)
| UploadThrew.

Definition SECONDS_PER_DAY : Z := 24 * 60 * 60.

(** [backupHeader.timestamp || receivedAt]. *)
Definition header_timestamp (h : json) (receivedAt : Z) : Q :=
  match member (Some h) "timestamp" with
  | Some (JNum t) => if Qeq_bool t 0 then inject_Z receivedAt else t
  | _ => inject_Z receivedAt
  end.

Section Upload.
  (** [verifyBackupHeaderSignature] of [utils/crypto.ts] (not modelled). *)
Variable verifyBackupHeaderSignature : json -> string -> bool.
Variable config : Config.

  (** The daily-limit check: [Some hoursRemaining] when the upload is refused. *)
Definition daily_limit (db : SanctuaryDb) (agentId : string) (now : Z) : option Z :=
    match getLatestBackup db agentId with
    | Some latestBackup =>
        let timeSinceLastBackup := (now - DbBackup.received_at latestBackup)%Z in
        if (timeSinceLastBackup <? SECONDS_PER_DAY)%Z
        then Some (ceil_div (SECONDS_PER_DAY - timeSinceLastBackup) 3600)
        else None
    | None => None
    end.

  (** The accepting tail of the handler, from the simulated Arweave upload on. *)
Definition accept_backup (db : SanctuaryDb) (req : UploadRequest) (backupHeader : json)
      (body : list Byte.byte) : UploadReply * SanctuaryDb :=
    let agentId := auth_agent_id req in
    let arweaveTxId := "simulated_" ++ tx_uuid req in
    let backupSeq := getNextBackupSeq db agentId in
    let backupId := backup_uuid req in
    let receivedAt := clock_recv req in
    let size := Z.of_nat (List.length body) in
    match createBackup db (DbBackup.mk backupId agentId arweaveTxId backupSeq
                             (header_timestamp backupHeader receivedAt) receivedAt size
                             (str_member backupHeader "manifest_hash")) with
    | Some db' => (UploadAccepted backupId backupSeq arweaveTxId size receivedAt, db')
    | None => (UploadThrew, db)
    end.

Definition upload (db : SanctuaryDb) (req : UploadRequest) : UploadReply * SanctuaryDb :=
    let agentId := auth_agent_id req in
    match x_backup_header req with
    | HeaderAbsent => (UploadFailed 400 "Missing X-Backup-Header", db)
    | HeaderUndecodable => (UploadFailed 400 "Invalid X-Backup-Header (must be base64 JSON)", db)
    | HeaderDecoded backupHeader =>
      match validateBackupHeader (Some backupHeader) with
      | Some headerError => (UploadFailed 400 ("Invalid backup header: " ++ headerError), db)
      | None =>
      if negb (String.eqb (to_lower (str_member backupHeader "agent_id")) (to_lower agentId)) then
        (UploadFailed 403 "Backup header agent_id does not match authenticated agent", db)
      else if negb (verifyBackupHeaderSignature backupHeader agentId) then
        (UploadFailed 403 "Invalid backup header signature", db)
      else
      match upload_body req with
      | None => (UploadFailed 400 "Empty backup body", db)
      | Some body =>
      if (Z.of_nat (List.length body) =? 0)%Z then (UploadFailed 400 "Empty backup body", db)
      else if (backupSizeLimit config <? Z.of_nat (List.length body))%Z then
        (UploadFailed 413 ("Backup exceeds size limit (" ++ pretty (backupSizeLimit config) ++ " bytes)"), db)
      else
      match getAgent db agentId with
      | None => (UploadFailed 404 "Agent not found", db)
      | Some agent =>
      if negb (String.eqb (DbAgent.status agent) "LIVING")
         && negb (String.eqb (DbAgent.status agent) "RETURNED") then
        (UploadFailed 403 ("Agent status is " ++ DbAgent.status agent ++ ", cannot upload backup"), db)
      else
      match daily_limit db agentId (clock_check req) with
      | Some hoursRemaining =>
          (UploadFailed 429 ("Daily backup limit reached. Try again in "
                             ++ pretty hoursRemaining ++ " hour(s)."), db)
      | None => accept_backup db req backupHeader body
      end
      end
      end
      end
    end.
End Upload.

(** ** Concrete inputs *)

(** A header with every field of the shared [BackupHeader] type except
    [manifest_version] and [prev_backup_hash]. *)
Definition header_without_version_and_prev : json :=
  JObj [("version", JStr "1");
        ("agent_id", JStr "0xa1");
        ("backup_id", JStr "b-1");
        ("backup_seq", JNum 1);
        ("timestamp", JNum 1700000000);
        ("manifest_hash", JStr "0xmh");
        ("files", JObj [("memory", JObj [("size", JNum 10); ("content_hash", JStr "0xch")])]);
        ("wrapped_keys", JObj [("recovery", JStr "wk1"); ("recall", JStr "wk2")]);
        ("signature", JStr "0xsig")].

Definition config0 : Config := mkConfig 3000 "" "jwt-secret" "0xc0" 84532 1000.

Definition agent_a1 (status : string) : DbAgent.t :=
  DbAgent.mk "0xa1" "gh1" "0xrk" "0xmh" 1 1600000000 status.

Definition user_gh1 : DbUser.t := DbUser.mk "gh1" "alice" "2020-01-01" 1500000000.

(** A store with user [gh1] owning agent [0xa1] in the given status, no backups. *)
Definition db_with_agent (status : string) : SanctuaryDb :=
  mkDb {[ "gh1" := user_gh1 ]} {[ "0xa1" := agent_a1 status ]} [] [] ∅ ∅.

Definition upload_req (h : BackupHeaderInput) (now : Z) (txu bu : string) : UploadRequest :=
  mkUploadRequest "0xa1" h (Some [Byte.x01; Byte.x02; Byte.x03]) now now txu bu.

Definition note_a : DbAttestationNote.t := DbAttestationNote.mk "0xh1" "trusted peer" 10.
Definition note_a' : DbAttestationNote.t := DbAttestationNote.mk "0xh1" "other text" 20.

(** ** Agent routes ([agentRoutes]) and the read routes of [backupRoutes] *)

(** [/^0x[a-fA-F0-9]{64}$/]. *)
Definition is_hex_digit (c : ascii) : bool :=
  let n := nat_of_ascii c in
  (((48 <=? n) && (n <=? 57)) || ((65 <=? n) && (n <=? 70)) || ((97 <=? n) && (n <=? 102)))%nat.

Definition is_0x_hex64 (s : string) : bool :=
  match s with
  | String "0" (String "x" rest) =>
      Nat.eqb (String.length rest) 64 && forallb is_hex_digit (list_ascii_of_string rest)
  | _ => false
  end.

(** Outcome of [request.jwtVerify()]: rejected, or the decoded claims. *)
Inductive JwtResult :=
| JwtRejected
| JwtDecoded (type : string) (githubId : option string).

(** POST /agents/register: the JWT outcome, the body fields (absent or
    present) and the [Math.floor(Date.now() / 1000)] reading. *)
Record RegisterRequest := mkRegisterRequest {
  reg_jwt : JwtResult;
  body_agentId : option string;
  body_recoveryPubKey : option string;
  body_manifestHash : option string;
  body_manifestVersion : option Z;
  reg_clock : Z
}.

Inductive RegisterReply :=
| RegisterFailed (code : Z) (error : string)
| RegisterConflict (error : string) (existing_agent_id : string)
| Registered (agent_id : string) (registered_at : Z) (status : string)
| RegisterThrew.

(** [!s] on an optional string. *)
Definition falsy_str (s : option string) : bool :=
  match s with None => true | Some s => String.eqb s "" end.

Definition str_or_empty (s : option string) : string :=
  match s with None => "" | Some s => s end.

Inductive ListReply :=
| ListFailed (code : Z) (error : string)
| ListedBackups (agent_id : string) (count : Z) (items : list DbBackup.t).

Inductive LatestReply :=
| LatestFailed (code : Z) (error : string)
| LatestBackup (backup : DbBackup.t).

Definition backup_seq_desc (a b : DbBackup.t) : Prop :=
  (DbBackup.backup_seq b <= DbBackup.backup_seq a)%Z.

#[global] Instance backup_seq_desc_dec : RelDecision backup_seq_desc.
Proof. intros a b. unfold backup_seq_desc. apply _. Defined.

(** [SELECT * FROM backups WHERE agent_id = ? ORDER BY backup_seq DESC LIMIT ?]
    (a negative LIMIT is no limit in SQLite). *)
Definition getBackupsByAgent (db : SanctuaryDb) (agentId : string) (limit : Z) : list DbBackup.t :=
  let rows := merge_sort backup_seq_desc
                (filter (fun b => DbBackup.agent_id b = agentId) (backups db)) in
  if (limit <? 0)%Z then rows else take (Z.to_nat limit) rows.

(** ** [JSON.stringify] on the values the routes build *)

Definition hex_digit_lower (n : nat) : ascii :=
  if (n <? 10)%nat then ascii_of_nat (48 + n)%nat else ascii_of_nat (87 + n)%nat.

(** The double quote and the backslash. *)
Definition dquote : ascii := ascii_of_nat 34.
Definition bslash : ascii := ascii_of_nat 92.

(** The escape of one character in a JSON string literal
    (QuoteJSONString: the two-character escapes, then [\u00XX] with lower
    case hex for the other control characters). *)
Definition json_escape_char (c : ascii) : string :=
  let n := nat_of_ascii c in
  if (n =? 34)%nat then String bslash (String dquote "")
  else if (n =? 92)%nat then String bslash (String bslash "")
  else if (n =? 8)%nat then String bslash "b"
  else if (n =? 12)%nat then String bslash "f"
  else if (n =? 10)%nat then String bslash "n"
  else if (n =? 13)%nat then String bslash "r"
  else if (n =? 9)%nat then String bslash "t"
  else if (n <? 32)%nat then
    String bslash (String "u" (String "0" (String "0"
      (String (hex_digit_lower (n / 16)) (String (hex_digit_lower (n mod 16)) "")))))
  else String c "".

Fixpoint json_escape (s : string) : string :=
  match s with
  | EmptyString => EmptyString
  | String c s' => json_escape_char c ++ json_escape s'
  end.

Definition json_quote (s : string) : string :=
  String dquote (json_escape s ++ String dquote "").

Fixpoint join (sep : string) (xs : list string) : string :=
  match xs with
  | [] => ""
  | [x] => x
  | x :: xs' => x ++ sep ++ join sep xs'
  end.

Section Routes.
  (** [isValidAddress] and [normalizeAddress] of [utils/crypto.ts] (not
      modelled here). *)
Variable isValidAddress : string -> bool.
Variable normalizeAddress : string -> string.
  (** [Number.prototype.toString] as used by [JSON.stringify] on a finite
      number, and the digests of node's [crypto]: [createHash('sha256')]
      and [createHmac('sha256', key)], both producing hex. *)
Variable number_to_json : Q -> string.
Variable sha256_hex : string -> string.
Variable hmac_sha256_hex : string -> string -> string.

Fixpoint JSON_stringify (v : json) : string :=
    match v with
    | JNull => "null"
    | JBool b => if b then "true" else "false"
    | JNum n => number_to_json n
    | JStr s => json_quote s
    | JArr items => "[" ++ join "," (map JSON_stringify items) ++ "]"
    | JObj ms => "{" ++ join "," (map (fun kv => json_quote (fst kv) ++ ":" ++ JSON_stringify (snd kv)) ms) ++ "}"
    end.

  (** *** POST /agents/register *)
Definition register (db : SanctuaryDb) (req : RegisterRequest) : RegisterReply * SanctuaryDb :=
    match reg_jwt req with
    | JwtRejected => (RegisterFailed 401 "Authentication required", db)
    | JwtDecoded type githubId =>
    if negb (String.eqb type "github") || falsy_str githubId then
      (RegisterFailed 401 "GitHub authentication required for registration", db)
    else
    let githubId := str_or_empty githubId in
    let agentId := str_or_empty (body_agentId req) in
    let recoveryPubKey := str_or_empty (body_recoveryPubKey req) in
    let manifestHash := str_or_empty (body_manifestHash req) in
    if falsy_str (body_agentId req) || negb (isValidAddress agentId) then
      (RegisterFailed 400 "Invalid agent ID (must be valid Ethereum address)", db)
    else if falsy_str (body_recoveryPubKey req) || negb (is_0x_hex64 recoveryPubKey) then
      (RegisterFailed 400 "Invalid recovery public key (must be 32 bytes hex)", db)
    else if falsy_str (body_manifestHash req) || negb (is_0x_hex64 manifestHash) then
      (RegisterFailed 400 "Invalid manifest hash", db)
    else
    let normalizedId := normalizeAddress agentId in
    match getAgent db normalizedId with
    | Some _ => (RegisterFailed 409 "Agent already registered", db)
    | None =>
    match getAgentByGithubId db githubId with
    | Some existingAgentForUser =>
        (RegisterConflict "GitHub account already has a registered agent"
                          (DbAgent.agent_id existingAgentForUser), db)
    | None =>
    match getUser db githubId with
    | None => (RegisterFailed 400 "User not found. Complete GitHub auth first.", db)
    | Some _ =>
    let now := reg_clock req in
    let manifestVersion := match body_manifestVersion req with
                           | Some v => if (v =? 0)%Z then 1%Z else v
                           | None => 1%Z end in
    match createAgent db (DbAgent.mk normalizedId githubId (to_lower recoveryPubKey)
                            (to_lower manifestHash) manifestVersion now "LIVING") with
    | Some db' => (Registered normalizedId now "LIVING", db')
    | None => (RegisterThrew, db)
    end
    end
    end
    end
    end.

  (** *** GET /backups/:agentId (authenticated as [callerId]) *)
Definition listBackups (db : SanctuaryDb) (callerId agentId : string) (limit : option Z) : ListReply :=
    let limit := match limit with Some l => if (l =? 0)%Z then 30%Z else l | None => 30%Z end in
    if negb (isValidAddress agentId) then ListFailed 400 "Invalid agent ID"
    else
    let normalizedId := normalizeAddress agentId in
    if negb (String.eqb (to_lower normalizedId) (to_lower callerId)) then
      ListFailed 403 "Cannot list backups for another agent"
    else
    let items := getBackupsByAgent db normalizedId (Z.min limit 100) in
    ListedBackups normalizedId (Z.of_nat (List.length items)) items.

  (** *** GET /backups/:agentId/latest (authenticated as [callerId]) *)
Definition latestBackup (db : SanctuaryDb) (callerId agentId : string) : LatestReply :=
    if negb (isValidAddress agentId) then LatestFailed 400 "Invalid agent ID"
    else
    let normalizedId := normalizeAddress agentId in
    if negb (String.eqb (to_lower normalizedId) (to_lower callerId)) then
      LatestFailed 403 "Cannot view backups for another agent"
    else
    match getLatestBackup db normalizedId with
    | None => LatestFailed 404 "No backups found for agent"
    | Some backup => LatestBackup backup
    end.

  (** *** POST /agents/:agentId/proof (authenticated as [callerId]) *)
Inductive ProofReply :=
  | ProofFailed (code : Z) (error : string)
  | ProofIssued (payload : list (string * json)) (proof_hash : string)
                (server_signature : string) (verify_url : string).

  (** The payload object, in the key order of the object literal. *)
Definition proof_payload (config : Config) (db : SanctuaryDb) (agent : DbAgent.t)
      (now : Z) : list (string * json) :=
    let normalizedId := DbAgent.agent_id agent in
    let trustScore := getTrustScore db normalizedId in
    let latestHeartbeat := getLatestHeartbeat db normalizedId in
    let backupCount := getBackupCount db normalizedId in
    [("agent_id", JStr (DbAgent.agent_id agent));
     ("backup_count", JNum (inject_Z backupCount));
     ("chain_id", JNum (inject_Z (chainId config)));
     ("contract_address", JStr (contractAddress config));
     ("issued_at", JNum (inject_Z now));
     ("last_heartbeat",
        match latestHeartbeat with
        | Some h => if (DbHeartbeat.received_at h =? 0)%Z then JNull
                    else JNum (inject_Z (DbHeartbeat.received_at h))
        | None => JNull
        end);
     ("registered_at", JNum (inject_Z (DbAgent.registered_at agent)));
     ("status", JStr (DbAgent.status agent));
     ("trust_level",
        match trustScore with
        | Some t => if String.eqb (DbTrustScore.level t) "" then JStr "UNVERIFIED"
                    else JStr (DbTrustScore.level t)
        | None => JStr "UNVERIFIED"
        end);
     ("trust_score",
        match trustScore with
        | Some t => if Qeq_bool (DbTrustScore.score t) 0 then JNum 0 else JNum (DbTrustScore.score t)
        | None => JNum 0
        end)].

Definition proof (config : Config) (db : SanctuaryDb) (callerId agentId : string) (now : Z)
      : ProofReply :=
    if negb (isValidAddress agentId) then ProofFailed 400 "Invalid agent ID"
    else
    let normalizedId := normalizeAddress agentId in
    if negb (String.eqb normalizedId callerId) then
      ProofFailed 403 "Can only generate proof for your own agent"
    else
    match getAgent db normalizedId with
    | None => ProofFailed 404 "Agent not found"
    | Some agent =>
        let payload := proof_payload config db agent now in
        let payloadJson := JSON_stringify (JObj payload) in
        let proofHash := sha256_hex payloadJson in
        let serverSignature := hmac_sha256_hex (jwtSecret config) proofHash in
        ProofIssued payload proofHash serverSignature
          (if String.eqb (publicUrl config) "" then
             "http://localhost:" ++ pretty (port config) ++ "/agents/" ++ normalizedId ++ "/status"
           else publicUrl config ++ "/agents/" ++ normalizedId ++ "/status")
    end.

  (** Modelled from the spec: [IdentityProof.verify] (section 4.6), the
      third-party check, which is not part of the API server.  The digest
      is recomputed over the payload fields as given and compared with
      [proof_hash], and [server_signature] is checked against the shared
      secret. *)
Definition verifyProof (secret : string) (payload : list (string * json))
      (proof_hash server_signature : string) : bool :=
    String.eqb (sha256_hex (JSON_stringify (JObj payload))) proof_hash
    && String.eqb (hmac_sha256_hex secret proof_hash) server_signature.
End Routes.

(** ** Trust levels ([shared/types]) *)
Inductive TrustLevel := UNVERIFIED | VERIFIED | ESTABLISHED | PILLAR.

(** [TRUST_THRESHOLDS]: the least score of each level. *)
Definition TRUST_THRESHOLDS : list (TrustLevel * Z) :=
  [(UNVERIFIED, 0%Z); (VERIFIED, 20%Z); (ESTABLISHED, 50%Z); (PILLAR, 100%Z)].

(** Modelled from the spec: the tiering of section 4.5, a step function of
    the final score over the [TRUST_THRESHOLDS] table (the function that
    computes trust levels is not among the sources).  A score gets the last
    level of the table whose threshold it reaches, and [UNVERIFIED] below
    every threshold. *)
Definition trustLevelOf (score : Q) : TrustLevel :=
  fold_left (fun acc lt => if Qle_bool (inject_Z (snd lt)) score then fst lt else acc)
            TRUST_THRESHOLDS UNVERIFIED.

(** ** Per-agent backup sequences and reachable stores *)

(** The backup rows of one agent, in insertion order. *)
Definition backups_of (db : SanctuaryDb) (agentId : string) : list DbBackup.t :=
  filter (fun b => DbBackup.agent_id b = agentId) (backups db).

(** [[1; 2; ...; n]]. *)
Definition iota1 (n : nat) : list Z := map (fun i => Z.of_nat (S i)) (seq 0 n).

(** Every agent's rows carry the sequence numbers [1..n] in insertion order. *)
Definition seq_gapless (db : SanctuaryDb) : Prop :=
  forall agentId, map DbBackup.backup_seq (backups_of db agentId)
                  = iota1 (List.length (backups_of db agentId)).

(** The largest stored sequence number of an agent, 0 without rows. *)
Definition max_seq (db : SanctuaryDb) (agentId : string) : Z :=
  fold_right Z.max 0%Z (map DbBackup.backup_seq (backups_of db agentId)).

(** The stores the modelled handlers produce from a store without backups
    (the schema is created empty). *)
Inductive reachable : SanctuaryDb -> Prop :=
| reach_init (u : gmap string DbUser.t) (a : gmap string DbAgent.t) (h : list DbHeartbeat.t)
    (ts : gmap string DbTrustScore.t) (n : gmap string DbAttestationNote.t) :
    reachable (mkDb u a h [] ts n)
| reach_upload (verify : json -> string -> bool) (config : Config) (db : SanctuaryDb)
    (req : UploadRequest) :
    reachable db -> reachable (snd (upload verify config db req))
| reach_register (isValidAddress : string -> bool) (normalizeAddress : string -> string)
    (db : SanctuaryDb) (req : RegisterRequest) :
    reachable db -> reachable (snd (register isValidAddress normalizeAddress db req))
| reach_note (db : SanctuaryDb) (note : DbAttestationNote.t) :
    reachable db -> reachable (createAttestationNote db note).

(** ** Concrete address helpers and inputs *)

(** Modelled from the spec: [isValidAddress] of [utils/crypto.ts], which is
    not among the sources.  An agent id is an Ethereum address (section 3 calls
    it a public-key-derived identifier; the registration handler asks for a
    "valid Ethereum address"): [0x] followed by 40 hex digits. *)
Definition isValidAddress_model (s : string) : bool :=
  match s with
  | String "0" (String "x" rest) =>
      Nat.eqb (String.length rest) 40 && forallb is_hex_digit (list_ascii_of_string rest)
  | _ => false
  end.

(** Modelled from the spec: [normalizeAddress] of [utils/crypto.ts], not
    among the sources.  Addresses are compared without regard to case
    (as the backup routes do with [toLowerCase]); the model maps an address
    to its lower-case form. *)
Definition normalizeAddress_model (s : string) : string := to_lower s.

Definition addr_a : string := "0x00000000000000000000000000000000000000a1".
Definition addr_b : string := "0x00000000000000000000000000000000000000b2".

(** A store with user [gh1] and no agent yet. *)
Definition db_user_only : SanctuaryDb :=
  mkDb {[ "gh1" := user_gh1 ]} ∅ [] [] ∅ ∅.

Definition register_req (agentId : string) : RegisterRequest :=
  mkRegisterRequest (JwtDecoded "github" (Some "gh1")) (Some agentId)
    (Some "0x1111111111111111111111111111111111111111111111111111111111111111")
    (Some "0x2222222222222222222222222222222222222222222222222222222222222222")
    (Some 1%Z) 1700000000.

(** The store [db_with_agent] after one accepted upload at time 1700000000. *)
Definition db_after_first_upload : SanctuaryDb :=
  snd (upload (fun _ _ => true) config0 (db_with_agent "LIVING")
         (upload_req (HeaderDecoded header_without_version_and_prev) 1700000000 "t1" "u1")).

(** ** Reading a serialised payload back *)

(** The characters [Number.prototype.toString] prints for a finite number. *)
Definition is_number_char (c : ascii) : bool :=
  existsb (Ascii.eqb c) (list_ascii_of_string "0123456789.-+e").

Definition hex_val (c : ascii) : option nat :=
  let n := nat_of_ascii c in
  if ((48 <=? n) && (n <=? 57))%nat then Some (n - 48)%nat
  else if ((97 <=? n) && (n <=? 102))%nat then Some (n - 87)%nat
  else None.

(** Reads one character of a JSON string literal body, undoing
    [json_escape_char]; a raw double quote ends the body. *)
Definition unesc (s : string) : option (ascii * string) :=
  match s with
  | EmptyString => None
  | String c r =>
    if Ascii.eqb c bslash then
      match r with
      | EmptyString => None
      | String e r' =>
        if Ascii.eqb e dquote then Some (dquote, r')
        else if Ascii.eqb e bslash then Some (bslash, r')
        else if Ascii.eqb e "b"%char then Some (ascii_of_nat 8, r')
        else if Ascii.eqb e "f"%char then Some (ascii_of_nat 12, r')
        else if Ascii.eqb e "n"%char then Some (ascii_of_nat 10, r')
        else if Ascii.eqb e "r"%char then Some (ascii_of_nat 13, r')
        else if Ascii.eqb e "t"%char then Some (ascii_of_nat 9, r')
        else if Ascii.eqb e "u"%char then
          match r' with
          | String z1 (String z2 (String h1 (String h2 r''))) =>
              if Ascii.eqb z1 "0"%char && Ascii.eqb z2 "0"%char then
                match hex_val h1, hex_val h2 with
                | Some a, Some b => Some (ascii_of_nat (16 * a + b), r'')
                | _, _ => None
                end
              else None
          | _ => None
          end
        else None
      end
    else if Ascii.eqb c dquote then None
    else Some (c, r)
  end.

(** Reads a string literal body up to its closing quote. *)
Fixpoint unquote (fuel : nat) (s : string) : option (string * string) :=
  match fuel with
  | O => None
  | S fuel' =>
    match s with
    | EmptyString => None
    | String c r =>
      if Ascii.eqb c dquote then Some (EmptyString, r)
      else match unesc s with
           | Some (c', r') =>
               match unquote fuel' r' with
               | Some (x, y) => Some (String c' x, y)
               | None => None
               end
           | None => None
           end
    end
  end.

(** The characters up to the next [,] or [}]. *)
Fixpoint take_token (s : string) : string * string :=
  match s with
  | EmptyString => (EmptyString, EmptyString)
  | String c r =>
      if Ascii.eqb c ","%char || Ascii.eqb c "}"%char then (EmptyString, s)
      else let (t, rest) := take_token r in (String c t, rest)
  end.

(** The scalar JSON values, as read back. *)
Inductive json_token :=
| TokNull
| TokBool (b : bool)
| TokStr (s : string)
| TokNum (s : string).

Definition classify (t : string) : json_token :=
  if String.eqb t "null" then TokNull
  else if String.eqb t "true" then TokBool true
  else if String.eqb t "false" then TokBool false
  else TokNum t.

Definition read_bare (s : string) : option (json_token * string) :=
  let (t, rest) := take_token s in Some (classify t, rest).

(** Reads one scalar value from the front of a serialisation. *)
Definition read_value (s : string) : option (json_token * string) :=
  match s with
  | String c r =>
      if Ascii.eqb c dquote then
        match unquote (String.length r) r with
        | Some (x, y) => Some (TokStr x, y)
        | None => None
        end
      else read_bare s
  | EmptyString => read_bare s
  end.

(** The token a scalar value serialises to ([number_to_json] being the
    number printer). *)
Definition token_of (number_to_json : Q -> string) (v : json) : option json_token :=
  match v with
  | JNull => Some TokNull
  | JBool b => Some (TokBool b)
  | JStr s => Some (TokStr s)
  | JNum n => Some (TokNum (number_to_json n))
  | JArr _ | JObj _ => None
  end.

(** null, a boolean, a number or a string. *)
Definition flat_json (v : json) : bool :=
  match v with JArr _ | JObj _ => false | _ => true end.

(** Equality of field values, numbers compared as numbers. *)
Definition json_equiv (v v' : json) : Prop :=
  match v, v' with
  | JNum a, JNum b => (a == b)%Q
  | _, _ => v = v'
  end.

(** Two payloads carry the same keys and equivalent values, field by field. *)
Definition fields_equiv (ps ps' : list (string * json)) : Prop :=
  Forall2 (fun kv kv' => fst kv = fst kv' /\ json_equiv (snd kv) (snd kv')) ps ps'.

(** One member of a serialised object, as [JSON_stringify] writes it. *)
Definition member_str (number_to_json : Q -> string) (kv : string * json) : string :=
  json_quote (fst kv) ++ ":" ++ JSON_stringify number_to_json (snd kv).

Fixpoint ascending (xs : list string) : bool :=
  match xs with
  | x :: ((y :: _) as t) =>
      match String.compare x y with Lt => ascending t | _ => false end
  | _ => true
  end.

(** ** Concrete number printer and digests for the proof route

    A printer of [Qred q] as a signed binary numerator, a dot and a binary
    denominator, injective up to [Qeq]; the identity as digest and
    concatenation as keyed digest. *)
Fixpoint bin_digits (p : positive) : string :=
  match p with
  | xI p => String "1" (bin_digits p)
  | xO p => String "0" (bin_digits p)
  | xH => EmptyString
  end.

Definition z_digits (z : Z) : string :=
  match z with
  | Z0 => "0"
  | Zpos p => String "+" (bin_digits p)
  | Zneg p => String "-" (bin_digits p)
  end.

Definition number_to_json_example (q : Q) : string :=
  let r := Qred q in z_digits (Qnum r) ++ String "." (bin_digits (Qden r)).

Definition sha256_example (s : string) : string := s.

Definition hmac_example (key msg : string) : string := key ++ msg.

(** The agent of [db_with_agent] with a heartbeat and a trust score. *)
Definition db_for_proof : SanctuaryDb :=
  mkDb {[ "gh1" := user_gh1 ]} {[ addr_a := DbAgent.mk addr_a "gh1" "0xr" "0xm" 1 1600000000 "LIVING" ]}
       [DbHeartbeat.mk 1 addr_a 1650000000 1650000000 "0xs"] [] {[ addr_a := DbTrustScore.mk addr_a (27 # 2) "VERIFIED" 3 1650000000 ]} ∅.

(** The proof route on [db_for_proof], for its own agent. *)
Definition proof_example : ProofReply :=
  proof isValidAddress_model normalizeAddress_model number_to_json_example sha256_example
        hmac_example config0 db_for_proof addr_a addr_a 1700000000.

(** ** More of the store ([db/index.ts]) *)

#[global] Instance backup_seq_desc_total : Total backup_seq_desc.
Proof. intros a b. unfold backup_seq_desc. lia. Qed.

#[global] Instance backup_seq_desc_trans : Transitive backup_seq_desc.
Proof. intros a b c. unfold backup_seq_desc. lia. Qed.

Definition set_heartbeats (db : SanctuaryDb) h :=
  mkDb (users db) (agents db) h (backups db) (trust_scores db) (attestation_notes db).
Definition set_trust_scores (db : SanctuaryDb) t :=
  mkDb (users db) (agents db) (heartbeats db) (backups db) t (attestation_notes db).

(** [UPDATE agents SET status = ? WHERE agent_id = ?]: no matching row, no change. *)
Definition updateAgentStatus (db : SanctuaryDb) (agentId status : string) : SanctuaryDb :=
  match getAgent db agentId with
  | Some a =>
      set_agents db (<[agentId := DbAgent.mk (DbAgent.agent_id a) (DbAgent.github_id a)
                                  (DbAgent.recovery_pubkey a) (DbAgent.manifest_hash a)
                                  (DbAgent.manifest_version a) (DbAgent.registered_at a)
                                  status]> (agents db))
  | None => db
  end.

(** [UPDATE agents SET manifest_hash = ?, manifest_version = ? WHERE agent_id = ?]. *)
Definition updateAgentManifest (db : SanctuaryDb) (agentId manifestHash : string)
    (manifestVersion : Z) : SanctuaryDb :=
  match getAgent db agentId with
  | Some a =>
      set_agents db (<[agentId := DbAgent.mk (DbAgent.agent_id a) (DbAgent.github_id a)
                                  (DbAgent.recovery_pubkey a) manifestHash manifestVersion
                                  (DbAgent.registered_at a) (DbAgent.status a)]> (agents db))
  | None => db
  end.

(** [SELECT * FROM agents] (in the table's order). *)
Definition getAllAgents (db : SanctuaryDb) : list DbAgent.t :=
  map snd (map_to_list (agents db)).

(** [SELECT * FROM agents WHERE status = ?]. *)
Definition getAgentsByStatus (db : SanctuaryDb) (status : string) : list DbAgent.t :=
  filter (fun a => DbAgent.status a = status) (getAllAgents db).

(** [INSERT INTO heartbeats (agent_id, agent_timestamp, received_at, signature)]:
    the AUTOINCREMENT id is one more than the largest id used (the code never
    deletes heartbeats); [None] when SQLite raises ([agent_id] missing from
    [agents], foreign keys being on). *)
Definition createHeartbeat (db : SanctuaryDb) (agentId : string) (agentTimestamp receivedAt : Z)
    (signature : string) : option SanctuaryDb :=
  match getAgent db agentId with
  | None => None
  | Some _ =>
      let id := (fold_right Z.max 0 (map DbHeartbeat.id (heartbeats db)) + 1)%Z in
      Some (set_heartbeats db (heartbeats db ++ [DbHeartbeat.mk id agentId agentTimestamp receivedAt signature]))
  end.

(** [MAX(received_at)] of an agent's heartbeats, [None] (NULL) without any. *)
Definition last_heartbeat_of (db : SanctuaryDb) (agentId : string) : option Z :=
  fold_left (fun acc h =>
      if String.eqb (DbHeartbeat.agent_id h) agentId then
        match acc with
        | None => Some (DbHeartbeat.received_at h)
        | Some m => Some (Z.max m (DbHeartbeat.received_at h))
        end
      else acc) (heartbeats db) None.

(** The LEFT JOIN query of [getAgentsWithoutRecentHeartbeat], [now] being
    [Math.floor(Date.now() / 1000)]. *)
Definition getAgentsWithoutRecentHeartbeat (db : SanctuaryDb) (thresholdSeconds now : Z)
    : list DbAgent.t :=
  let cutoff := (now - thresholdSeconds)%Z in
  filter (fun a =>
      (String.eqb (DbAgent.status a) "LIVING"
       && match last_heartbeat_of db (DbAgent.agent_id a) with
          | None => true
          | Some m => (m <? cutoff)%Z
          end) = true)
    (getAllAgents db).

(** [SELECT * FROM backups WHERE id = ?]. *)
Definition getBackup (db : SanctuaryDb) (id : string) : option DbBackup.t :=
  List.find (fun b => String.eqb (DbBackup.id b) id) (backups db).

(** [INSERT ... ON CONFLICT(agent_id) DO UPDATE] on [trust_scores]: [None]
    when SQLite raises ([agent_id] missing from [agents]). *)
Definition upsertTrustScore (db : SanctuaryDb) (score : DbTrustScore.t) : option SanctuaryDb :=
  match getAgent db (DbTrustScore.agent_id score) with
  | None => None
  | Some _ => Some (set_trust_scores db (<[DbTrustScore.agent_id score := score]> (trust_scores db)))
  end.

(** *** Auth challenges (the [auth_challenges] table, keyed by [nonce]) *)
Module DbAuthChallenge.
Record t := mk { nonce : string; agent_id : string; expires_at : Z; used : Z }.
End DbAuthChallenge.

Definition AuthChallenges := gmap string DbAuthChallenge.t.

(** INSERT: [None] when SQLite raises (duplicate [nonce]). *)
Definition createAuthChallenge (tbl : AuthChallenges) (challenge : DbAuthChallenge.t)
    : option AuthChallenges :=
  match tbl !! DbAuthChallenge.nonce challenge with
  | Some _ => None
  | None => Some (<[DbAuthChallenge.nonce challenge := challenge]> tbl)
  end.

Definition getAuthChallenge (tbl : AuthChallenges) (nonce : string) : option DbAuthChallenge.t :=
  tbl !! nonce.

(** [UPDATE auth_challenges SET used = 1 WHERE nonce = ?]. *)
Definition markChallengeUsed (tbl : AuthChallenges) (nonce : string) : AuthChallenges :=
  match tbl !! nonce with
  | Some c => <[nonce := DbAuthChallenge.mk (DbAuthChallenge.nonce c) (DbAuthChallenge.agent_id c)
                           (DbAuthChallenge.expires_at c) 1]> tbl
  | None => tbl
  end.

(** [DELETE FROM auth_challenges WHERE expires_at < ?] at [now]: the number of
    deleted rows and the table left. *)
Definition cleanupExpiredChallenges (tbl : AuthChallenges) (now : Z) : Z * AuthChallenges :=
  (Z.of_nat (size (filter (fun kv => (DbAuthChallenge.expires_at kv.2 < now)%Z) tbl)),
   filter (fun kv => ~ (DbAuthChallenge.expires_at kv.2 < now)%Z) tbl).

(** *** The database singleton ([initDb], [getDb], [closeDb])

    A [SanctuaryDb] object is known by the path it was opened on and the
    number of objects created before it. *)
Record DbHandle := mkDbHandle { handle_path : string; handle_serial : nat }.

Record DbSingleton := mkDbSingleton { db_slot : option DbHandle; handles_created : nat }.

Inductive Throws (A : Type) :=
| Returns (a : A)
| Threw (message : string).
Arguments Returns {A} a.
Arguments Threw {A} message.

Definition initDb (st : DbSingleton) (dbPath : string) : DbHandle * DbSingleton :=
  match db_slot st with
  | Some h => (h, st)
  | None =>
      let h := mkDbHandle dbPath (handles_created st) in
      (h, mkDbSingleton (Some h) (S (handles_created st)))
  end.

Definition getDb (st : DbSingleton) : Throws DbHandle :=
  match db_slot st with
  | None => Threw "Database not initialized. Call initDb() first."
  | Some h => Returns h
  end.

Definition closeDb (st : DbSingleton) : DbSingleton :=
  match db_slot st with
  | Some _ => mkDbSingleton None (handles_created st)
  | None => st
  end.

(** ** Configuration loading ([config.ts]) *)

(** [process.env]: unset variables are [None]. *)
Definition Env := string -> option string.

Module ConfigTs.
Record Config := mkConfig {
  port : Z; host : string; nodeEnv : string; publicUrl : string;
  databasePath : string;
  jwtSecret : string; jwtTtlSeconds : Z;
  githubClientId : string; githubClientSecret : string;
  baseRpcUrl : string; contractAddress : string; ownerPrivateKey : string; chainId : Z;
  irysPrivateKey : string; irysNode : string;
  challengeTtlSeconds : Z; githubMinAgeDays : Z; backupSizeLimit : Z
}.
End ConfigTs.

Definition res_bind {A B : Type} (r : Throws A) (f : A -> Throws B) : Throws B :=
  match r with Returns a => f a | Threw m => Threw m end.

(** The white space [parseInt] skips (on ASCII: TAB, LF, VT, FF, CR, SP). *)
Definition js_is_space (c : ascii) : bool :=
  let n := nat_of_ascii c in ((9 <=? n) && (n <=? 13))%nat || (n =? 32)%nat.

Fixpoint trim_start (s : string) : string :=
  match s with
  | String c r => if js_is_space c then trim_start r else s
  | EmptyString => EmptyString
  end.

Definition digit_val (c : ascii) : option Z :=
  let n := nat_of_ascii c in
  if ((48 <=? n) && (n <=? 57))%nat then Some (Z.of_nat (n - 48)) else None.

(** The value of the leading decimal digits, [acc] holding the digits read. *)
Fixpoint decimal_prefix (acc : option Z) (s : string) : option Z :=
  match s with
  | String c r =>
      match digit_val c with
      | Some d => decimal_prefix (Some (10 * default 0%Z acc + d)%Z) r
      | None => acc
      end
  | EmptyString => acc
  end.

(** [parseInt(value, 10)]: [None] is [NaN]; the value is exact, as the
    double [parseInt] returns is for integers up to 2^53. *)
Definition parseInt10 (s : string) : option Z :=
  match trim_start s with
  | String "-" r => option_map Z.opp (decimal_prefix None r)
  | String "+" r => decimal_prefix None r
  | t => decimal_prefix None t
  end.

Definition requireEnv (env : Env) (name : string) : Throws string :=
  match env name with
  | Some v => if String.eqb v "" then Threw ("Missing required environment variable: " ++ name)
              else Returns v
  | None => Threw ("Missing required environment variable: " ++ name)
  end.

Definition optionalEnv (env : Env) (name defaultValue : string) : string :=
  match env name with
  | Some v => if String.eqb v "" then defaultValue else v
  | None => defaultValue
  end.

Definition optionalEnvInt (env : Env) (name : string) (defaultValue : Z) : Throws Z :=
  match env name with
  | None => Returns defaultValue
  | Some v =>
      if String.eqb v "" then Returns defaultValue
      else match parseInt10 v with
           | None => Threw ("Invalid integer for " ++ name ++ ": " ++ v)
           | Some parsed => Returns parsed
           end
  end.

(** [loadConfig]: the object literal's fields are evaluated in order, the
    first throw ends it. *)
Definition loadConfig (env : Env) : Throws ConfigTs.Config :=
  res_bind (optionalEnvInt env "PORT" 3000) (fun port =>
  let host := optionalEnv env "HOST" "0.0.0.0" in
  let nodeEnv := optionalEnv env "NODE_ENV" "development" in
  let publicUrl := optionalEnv env "PUBLIC_URL" "" in
  let databasePath := optionalEnv env "DATABASE_PATH" "./sanctuary.db" in
  res_bind (requireEnv env "JWT_SECRET") (fun jwtSecret =>
  res_bind (optionalEnvInt env "JWT_TTL_SECONDS" 86400) (fun jwtTtlSeconds =>
  res_bind (requireEnv env "GITHUB_CLIENT_ID") (fun githubClientId =>
  res_bind (requireEnv env "GITHUB_CLIENT_SECRET") (fun githubClientSecret =>
  let baseRpcUrl := optionalEnv env "BASE_RPC_URL" "https://sepolia.base.org" in
  let contractAddress := optionalEnv env "CONTRACT_ADDRESS" "" in
  let ownerPrivateKey := optionalEnv env "OWNER_PRIVATE_KEY" "" in
  res_bind (optionalEnvInt env "CHAIN_ID" 84532) (fun chainId =>
  let irysPrivateKey := optionalEnv env "IRYS_PRIVATE_KEY" "" in
  let irysNode := optionalEnv env "IRYS_NODE" "https://node2.irys.xyz" in
  res_bind (optionalEnvInt env "CHALLENGE_TTL_SECONDS" 300) (fun challengeTtlSeconds =>
  res_bind (optionalEnvInt env "GITHUB_MIN_AGE_DAYS" 30) (fun githubMinAgeDays =>
  res_bind (optionalEnvInt env "BACKUP_SIZE_LIMIT" (5 * 1024 * 1024)) (fun backupSizeLimit =>
  Returns (ConfigTs.mkConfig port host nodeEnv publicUrl databasePath jwtSecret jwtTtlSeconds
             githubClientId githubClientSecret baseRpcUrl contractAddress ownerPrivateKey chainId
             irysPrivateKey irysNode challengeTtlSeconds githubMinAgeDays backupSizeLimit)))))))))).

Definition validateConfig (config : ConfigTs.Config) : list string :=
  if String.eqb (ConfigTs.nodeEnv config) "production" then
    (if String.eqb (ConfigTs.contractAddress config) "" then ["CONTRACT_ADDRESS is required in production"] else [])
    ++ (if (String.length (ConfigTs.jwtSecret config) <? 32)%nat
        then ["JWT_SECRET should be at least 32 characters in production"] else [])
  else [].

(** [getConfig] with its module-level cache. *)
Definition getConfig (cache : option ConfigTs.Config) (env : Env)
    : Throws ConfigTs.Config * option ConfigTs.Config :=
  match cache with
  | Some c => (Returns c, cache)
  | None =>
      match loadConfig env with
      | Returns c => (Returns c, Some c)
      | Threw m => (Threw m, None)
      end
  end.

(** ** GET /agents/:agentId and GET /agents/:agentId/status *)

Record TrustView := mkTrustView {
  trust_score : Q; trust_level : string; trust_unique_attesters : Z; trust_computed_at : option Z }.

Record LatestBackupView := mkLatestBackupView {
  latest_id : string; latest_backup_seq : Z; latest_arweave_tx_id : string;
  latest_timestamp : Q; latest_size_bytes : Z }.

Inductive AgentInfoReply :=
| AgentInfoFailed (code : Z) (error : string)
| AgentInfo (agent_id : string) (github_username : option string) (recovery_pubkey : string)
            (manifest_hash : string) (manifest_version registered_at : Z) (status : string).

Inductive AgentStatusReply :=
| AgentStatusFailed (code : Z) (error : string)
| AgentStatus (agent_id : string) (github_username : option string) (manifest_hash : string)
              (manifest_version registered_at : Z) (status : string) (trust : TrustView)
              (backup_count : Z) (latest : option LatestBackupView) (last_seen : option Z).

Section AgentReads.
Variable isValidAddress : string -> bool.
Variable normalizeAddress : string -> string.

Definition agentInfo (db : SanctuaryDb) (agentId : string) : AgentInfoReply :=
  if negb (isValidAddress agentId) then AgentInfoFailed 400 "Invalid agent ID"
  else
  let normalizedId := normalizeAddress agentId in
  match getAgent db normalizedId with
  | None => AgentInfoFailed 404 "Agent not found"
  | Some agent =>
      let user := getUser db (DbAgent.github_id agent) in
      AgentInfo (DbAgent.agent_id agent) (option_map DbUser.github_username user)
        (DbAgent.recovery_pubkey agent) (DbAgent.manifest_hash agent)
        (DbAgent.manifest_version agent) (DbAgent.registered_at agent) (DbAgent.status agent)
  end.

Definition agentStatus (db : SanctuaryDb) (agentId : string) : AgentStatusReply :=
  if negb (isValidAddress agentId) then AgentStatusFailed 400 "Invalid agent ID"
  else
  let normalizedId := normalizeAddress agentId in
  match getAgent db normalizedId with
  | None => AgentStatusFailed 404 "Agent not found"
  | Some agent =>
      let user := getUser db (DbAgent.github_id agent) in
      let trustScore := getTrustScore db normalizedId in
      let latestHeartbeat := getLatestHeartbeat db normalizedId in
      let latestBackup := getLatestBackup db normalizedId in
      let backupCount := getBackupCount db normalizedId in
      AgentStatus (DbAgent.agent_id agent) (option_map DbUser.github_username user)
        (DbAgent.manifest_hash agent) (DbAgent.manifest_version agent)
        (DbAgent.registered_at agent) (DbAgent.status agent)
        (match trustScore with
         | Some t => mkTrustView (DbTrustScore.score t) (DbTrustScore.level t)
                       (DbTrustScore.unique_attesters t) (Some (DbTrustScore.computed_at t))
         | None => mkTrustView 0 "UNVERIFIED" 0 None
         end)
        backupCount
        (match latestBackup with
         | Some b => Some (mkLatestBackupView (DbBackup.id b) (DbBackup.backup_seq b)
                             (DbBackup.arweave_tx_id b) (DbBackup.agent_timestamp b)
                             (DbBackup.size_bytes b))
         | None => None
         end)
        (match latestHeartbeat with
         | Some h => if (DbHeartbeat.received_at h =? 0)%Z then None else Some (DbHeartbeat.received_at h)
         | None => None
         end)
  end.
End AgentReads.

(** The fold of the two [ORDER BY ... DESC LIMIT 1] queries, over rows
    with an owner and a sort key. *)
Definition latest_by_step {A : Type} (owner : A -> string) (key : A -> Z) (agentId : string)
    (acc : option A) (x : A) : option A :=
  if String.eqb (owner x) agentId then
    match acc with
    | None => Some x
    | Some x0 => if (key x0 <? key x)%Z then Some x else acc
    end
  else acc.

(** What the accumulator knows about the rows seen so far. *)
Definition latest_inv {A : Type} (key : A -> Z) (acc : option A) (rows : list A) : Prop :=
  (acc = None <-> rows = []) /\
  (forall x, acc = Some x -> x ∈ rows /\ forall y, y ∈ rows -> (key y <= key x)%Z).




(** An environment with only the three required variables set. *)
Definition env_required_only : Env := fun x =>
  if String.eqb x "JWT_SECRET" then Some "a-secret-of-more-than-thirty-two-chars"
  else if String.eqb x "GITHUB_CLIENT_ID" then Some "client-id"
  else if String.eqb x "GITHUB_CLIENT_SECRET" then Some "client-secret"
  else None.

(** The handle in the slot was created before the counter's value. *)
Definition singleton_wf (st : DbSingleton) : Prop :=
  match db_slot st with
  | Some h => (handle_serial h < handles_created st)%nat
  | None => True
  end.

(** [INSERT INTO users]: [None] when SQLite raises (duplicate [github_id]). *)
Definition createUser (db : SanctuaryDb) (user : DbUser.t) : option SanctuaryDb :=
  match users db !! DbUser.github_id user with
  | Some _ => None
  | None => Some (mkDb (<[DbUser.github_id user := user]> (users db)) (agents db) (heartbeats db)
                       (backups db) (trust_scores db) (attestation_notes db))
  end.

(** [SELECT * FROM users WHERE github_username = ?] (the first row found). *)
Definition getUserByUsername (db : SanctuaryDb) (username : string) : option DbUser.t :=
  head (filter (fun u => DbUser.github_username u = username) (map snd (map_to_list (users db)))).

Definition agent_of_gh1 : DbAgent.t :=
  DbAgent.mk addr_a "gh1" "0xr" "0xm" 1 1700000000 "LIVING".

(** * Properties *)

Open Scope list_scope.

(** ** Trust tiering *)

Lemma Qle_bool_false_lt (x y : Q) : Qle_bool x y = false -> (y < x)%Q.
Proof.
  intros H. apply Qnot_le_lt. intros Hle. apply Qle_bool_iff in Hle. congruence.
Qed.

(** Claim C7: the trust level is a step function of the score:
    below 20 UNVERIFIED, from 20 below 50 VERIFIED, from 50 below 100
    ESTABLISHED, from 100 on PILLAR. *)
Theorem trustLevelOf_step (s : Q) :
  (trustLevelOf s = UNVERIFIED <-> (s < 20)%Q) /\
  (trustLevelOf s = VERIFIED <-> (20 <= s)%Q /\ (s < 50)%Q) /\
  (trustLevelOf s = ESTABLISHED <-> (50 <= s)%Q /\ (s < 100)%Q) /\
  (trustLevelOf s = PILLAR <-> (100 <= s)%Q).
Proof.
  unfold trustLevelOf; simpl.
  destruct (Qle_bool (inject_Z 0) s) eqn:E0;
  destruct (Qle_bool (inject_Z 20) s) eqn:E1;
  destruct (Qle_bool (inject_Z 50) s) eqn:E2;
  destruct (Qle_bool (inject_Z 100) s) eqn:E3;
  repeat match goal with
  | H : Qle_bool _ _ = true |- _ => apply Qle_bool_iff in H
  | H : Qle_bool _ _ = false |- _ => apply Qle_bool_false_lt in H
  end;
  unfold inject_Z in *;
  repeat split; intros; try discriminate; try reflexivity;
  try (exfalso; lra); lra.
Qed.

(** ** Attestation notes *)

(** Claim C8: storing a note under a hash already present (in particular
    storing the same note twice) leaves the store as the first insert left
    it, and reading that hash returns the content stored first. *)
Theorem createAttestationNote_idempotent (db : SanctuaryDb) (n n' : DbAttestationNote.t)
    (Hhash : DbAttestationNote.hash n' = DbAttestationNote.hash n) :
  createAttestationNote (createAttestationNote db n) n' = createAttestationNote db n /\
  option_map DbAttestationNote.content
    (getAttestationNote (createAttestationNote (createAttestationNote db n) n')
                        (DbAttestationNote.hash n))
  = Some (DbAttestationNote.content
            (match getAttestationNote db (DbAttestationNote.hash n) with
             | Some original => original
             | None => n
             end)).
Proof.
  unfold createAttestationNote, getAttestationNote; rewrite Hhash.
  destruct (attestation_notes db !! DbAttestationNote.hash n) as [old|] eqn:E.
  - rewrite E. split; [reflexivity|]. rewrite E. reflexivity.
  - unfold set_attestation_notes; cbn [attestation_notes].
    rewrite lookup_insert_eq. split; [reflexivity|].
    cbn [attestation_notes]. rewrite lookup_insert_eq. reflexivity.
Qed.

(** ** Upload: failures do not touch the store *)

(** Claim C9: every upload that is not accepted (any 4xx reply, or an
    exception from the store) leaves the store unchanged, so no backup row
    is created and the agent's backup count and latest sequence number stay
    as they were. *)
Theorem upload_failure_leaves_store (verify : json -> string -> bool) (config : Config)
    (db : SanctuaryDb) (req : UploadRequest) :
  match fst (upload verify config db req) with
  | UploadAccepted _ _ _ _ _ => True
  | _ => snd (upload verify config db req) = db
  end.
Proof.
  unfold upload, accept_backup.
  repeat case_match; simpl in *; first [exact I | reflexivity | congruence].
Qed.

(** ** Upload: agent status gate *)

(** Claim C6: when the authenticated agent is absent from the store, or its
    status is neither LIVING nor RETURNED (FALLEN, UNREGISTERED, ...), the
    upload fails with an error reply and the store is unchanged; so an
    accepted upload always had a LIVING or RETURNED agent. *)
Theorem upload_requires_living_or_returned (verify : json -> string -> bool) (config : Config)
    (db : SanctuaryDb) (req : UploadRequest)
    (Hstatus : match getAgent db (auth_agent_id req) with
               | Some agent => DbAgent.status agent <> "LIVING" /\ DbAgent.status agent <> "RETURNED"
               | None => True
               end) :
  exists code error, upload verify config db req = (UploadFailed code error, db).
Proof.
  unfold upload.
  repeat case_match; eauto.
  all: destruct Hstatus as [Hl Hr].
  all: match goal with
       | H : negb _ && negb _ = false |- _ =>
           apply andb_false_iff in H; destruct H as [H|H]; apply negb_false_iff, String.eqb_eq in H;
           contradiction
       end.
Qed.

(** ** Backup sequence numbers *)

Lemma iota1_S (n : nat) : iota1 (S n) = iota1 n ++ [Z.of_nat (S n)].
Proof. unfold iota1. rewrite seq_S, map_app. reflexivity. Qed.

Lemma iota1_length (n : nat) : List.length (iota1 n) = n.
Proof. unfold iota1. rewrite length_map, length_seq. reflexivity. Qed.

(** The last row of a gapless sequence carries its length. *)
Lemma last_gapless_seq (rows : list DbBackup.t) (r : DbBackup.t) :
  map DbBackup.backup_seq rows = iota1 (List.length rows) ->
  last rows = Some r ->
  DbBackup.backup_seq r = Z.of_nat (List.length rows).
Proof.
  intros Hseq Hlast. apply last_Some in Hlast as [rows' ->].
  rewrite length_app in *; simpl in *.
  rewrite Nat.add_1_r, iota1_S, map_app in Hseq.
  apply app_inj_tail in Hseq as [_ Hr].
  rewrite Hr. lia.
Qed.

(** On a gapless sequence the ORDER BY backup_seq DESC query returns the
    most recently inserted row of the agent. *)
Lemma latest_backup_fold_gapless (agentId : string) (l : list DbBackup.t) :
  let rows := filter (fun b => DbBackup.agent_id b = agentId) l in
  map DbBackup.backup_seq rows = iota1 (List.length rows) ->
  fold_left (latest_backup_step agentId) l None = last rows.
Proof.
  induction l as [|x l IH] using rev_ind; simpl; [reflexivity|].
  rewrite filter_app, fold_left_app. simpl.
  unfold latest_backup_step at 1.
  destruct (String.eqb_spec (DbBackup.agent_id x) agentId) as [Hx|Hx].
  - rewrite filter_cons_True by exact Hx. simpl. intros Hseq.
    rewrite length_app in Hseq; simpl in Hseq.
    rewrite Nat.add_1_r, iota1_S, map_app in Hseq.
    apply app_inj_tail in Hseq as [Hpre Hxseq].
    rewrite IH by exact Hpre. rewrite filter_nil, last_snoc.
    destruct (last (filter (fun b => DbBackup.agent_id b = agentId) l)) as [r|] eqn:Hl;
      [|reflexivity].
    rewrite (last_gapless_seq _ r Hpre Hl), Hxseq.
    destruct (Z.ltb_spec (Z.of_nat (List.length (filter (fun b => DbBackup.agent_id b = agentId) l)))
                (Z.of_nat (S (List.length (filter (fun b => DbBackup.agent_id b = agentId) l)))));
      [reflexivity | lia].
  - rewrite filter_cons_False by exact Hx. rewrite filter_nil, app_nil_r. exact IH.
Qed.

Lemma next_seq_gapless (db : SanctuaryDb) (agentId : string) :
  map DbBackup.backup_seq (backups_of db agentId) = iota1 (List.length (backups_of db agentId)) ->
  getNextBackupSeq db agentId = (Z.of_nat (List.length (backups_of db agentId)) + 1)%Z.
Proof.
  intros Hseq. unfold getNextBackupSeq, getLatestBackup.
  rewrite (latest_backup_fold_gapless agentId (backups db) Hseq).
  fold (backups_of db agentId).
  destruct (last (backups_of db agentId)) as [r|] eqn:Hl.
  - rewrite (last_gapless_seq _ r Hseq Hl). reflexivity.
  - apply last_None in Hl. rewrite Hl. reflexivity.
Qed.

(** An upload either leaves the store as it was, or appends exactly one row
    for the authenticated agent, numbered by [getNextBackupSeq] and stamped
    with the receipt time, and answers 201 with that row. *)
Lemma upload_outcome (verify : json -> string -> bool) (config : Config)
    (db : SanctuaryDb) (req : UploadRequest) :
  (snd (upload verify config db req) = db /\
   match fst (upload verify config db req) with UploadAccepted _ _ _ _ _ => False | _ => True end) \/
  exists row,
    snd (upload verify config db req) = set_backups db (backups db ++ [row]) /\
    DbBackup.agent_id row = auth_agent_id req /\
    DbBackup.backup_seq row = getNextBackupSeq db (auth_agent_id req) /\
    DbBackup.received_at row = clock_recv req /\
    fst (upload verify config db req)
    = UploadAccepted (DbBackup.id row) (DbBackup.backup_seq row) (DbBackup.arweave_tx_id row)
                     (DbBackup.size_bytes row) (clock_recv req).
Proof.
  unfold upload, accept_backup, createBackup.
  repeat case_match; simplify_eq/=; auto.
  right. eexists. repeat split; reflexivity.
Qed.

Lemma register_keeps_backups (isValidAddress : string -> bool) (normalizeAddress : string -> string)
    (db : SanctuaryDb) (req : RegisterRequest) :
  backups (snd (register isValidAddress normalizeAddress db req)) = backups db.
Proof. unfold register, createAgent. repeat case_match; simplify_eq/=; reflexivity. Qed.

Lemma createAttestationNote_keeps_backups (db : SanctuaryDb) (note : DbAttestationNote.t) :
  backups (createAttestationNote db note) = backups db.
Proof. unfold createAttestationNote. case_match; reflexivity. Qed.

Lemma seq_gapless_same_backups (db db' : SanctuaryDb) :
  backups db' = backups db -> seq_gapless db -> seq_gapless db'.
Proof. intros Hb Hg a. unfold backups_of. rewrite Hb. apply Hg. Qed.

Lemma backups_of_append (db : SanctuaryDb) (row : DbBackup.t) (agentId : string) :
  backups_of (set_backups db (backups db ++ [row])) agentId
  = backups_of db agentId ++ (if String.eqb (DbBackup.agent_id row) agentId then [row] else []).
Proof.
  unfold backups_of; simpl. rewrite filter_app.
  destruct (String.eqb_spec (DbBackup.agent_id row) agentId) as [H|H].
  - rewrite filter_cons_True by exact H. rewrite filter_nil. reflexivity.
  - rewrite filter_cons_False by exact H. rewrite filter_nil. reflexivity.
Qed.

(** Appending the row [getNextBackupSeq] numbers keeps every sequence gapless. *)
Lemma seq_gapless_append (db : SanctuaryDb) (row : DbBackup.t) :
  seq_gapless db ->
  DbBackup.backup_seq row = getNextBackupSeq db (DbBackup.agent_id row) ->
  seq_gapless (set_backups db (backups db ++ [row])).
Proof.
  intros Hg Hrow a. rewrite backups_of_append.
  destruct (String.eqb_spec (DbBackup.agent_id row) a) as [<-|Hne].
  - rewrite next_seq_gapless in Hrow by apply Hg.
    rewrite map_app, length_app, Hg; simpl.
    rewrite Nat.add_1_r, iota1_S, Hrow. f_equal. f_equal. lia.
  - rewrite !app_nil_r. apply Hg.
Qed.

Lemma reachable_seq_gapless (db : SanctuaryDb) : reachable db -> seq_gapless db.
Proof.
  induction 1 as [u a h ts n|verify config db req _ IH|iv na db req _ IH|db note _ IH].
  - intros agentId. reflexivity.
  - destruct (upload_outcome verify config db req) as [[-> _]|[row (-> & Hagent & Hseq & _)]];
      [exact IH|].
    apply seq_gapless_append; [exact IH|]. rewrite Hagent. exact Hseq.
  - eapply seq_gapless_same_backups; [apply register_keeps_backups|exact IH].
  - eapply seq_gapless_same_backups; [apply createAttestationNote_keeps_backups|exact IH].
Qed.

Lemma fold_max_iota1 (n : nat) : fold_right Z.max 0%Z (iota1 n) = Z.of_nat n.
Proof.
  assert (Hgen : forall (l : list Z) (x : Z), (0 <= x)%Z ->
            fold_right Z.max 0%Z (l ++ [x]) = Z.max (fold_right Z.max 0%Z l) x).
  { induction l as [|y l IHl]; intros x Hx; simpl; [lia|]. rewrite IHl by exact Hx. lia. }
  induction n as [|n IHn]; [reflexivity|].
  rewrite iota1_S, Hgen by lia. rewrite IHn. lia.
Qed.

Lemma max_seq_gapless (db : SanctuaryDb) (agentId : string) :
  seq_gapless db -> max_seq db agentId = Z.of_nat (List.length (backups_of db agentId)).
Proof. intros Hg. unfold max_seq. rewrite Hg. apply fold_max_iota1. Qed.

(** Claim C3: in every store the handlers can produce, each agent's stored
    backup sequence numbers are [1, 2, ..., n] in insertion order (strictly
    increasing, no gaps); and an accepted upload is numbered one more than
    the agent's largest stored number, so 1 for its first backup. *)
Theorem backup_seq_assignment (db : SanctuaryDb) (Hreach : reachable db) :
  seq_gapless db /\
  forall (verify : json -> string -> bool) (config : Config) (req : UploadRequest)
         (backup_id : string) (backup_seq : Z) (arweave_tx_id : string) (size_bytes received_at : Z),
    fst (upload verify config db req)
      = UploadAccepted backup_id backup_seq arweave_tx_id size_bytes received_at ->
    backup_seq = (max_seq db (auth_agent_id req) + 1)%Z /\
    (backups_of db (auth_agent_id req) = [] -> backup_seq = 1%Z) /\
    seq_gapless (snd (upload verify config db req)).
Proof.
  pose proof (reachable_seq_gapless db Hreach) as Hg.
  split; [exact Hg|].
  intros verify config req bid bseq tx size ra Hacc.
  destruct (upload_outcome verify config db req) as [[_ Hnot]|[row (Hdb & Hagent & Hseq & _ & Hfst)]].
  - rewrite Hacc in Hnot. contradiction.
  - rewrite Hacc in Hfst. injection Hfst as _ Hbs _ _ _. subst bseq.
    rewrite max_seq_gapless by exact Hg. rewrite Hseq, next_seq_gapless by apply Hg.
    split; [reflexivity|]. split.
    + intros Hnil. rewrite Hnil. reflexivity.
    + rewrite Hdb. apply seq_gapless_append; [exact Hg|]. rewrite Hagent. exact Hseq.
Qed.

(** In a reachable store the ORDER BY backup_seq DESC row is the agent's
    last inserted row. *)
Lemma getLatestBackup_reachable (db : SanctuaryDb) (agentId : string) :
  reachable db -> getLatestBackup db agentId = last (backups_of db agentId).
Proof.
  intros Hreach. apply latest_backup_fold_gapless. apply (reachable_seq_gapless db Hreach).
Qed.

(** ** Upload: the daily limit *)

(** Claim C2: for an upload that passes every earlier check, when the agent
    has stored backups and the last one was received [d] seconds before
    the check, the upload is refused with 429 reporting
    [ceil((86400 - d) / 3600)] hours to wait if [d < 86400], and goes on to
    be stored otherwise; the row an accepted upload stores is the agent's
    last one and carries that upload's receipt time. *)
Theorem upload_daily_limit (verify : json -> string -> bool) (config : Config) (db : SanctuaryDb)
    (Hreach : reachable db) :
  (forall (req : UploadRequest) (header : json) (body : list Byte.byte) (agent : DbAgent.t)
          (last_row : DbBackup.t),
    x_backup_header req = HeaderDecoded header ->
    validateBackupHeader (Some header) = None ->
    to_lower (str_member header "agent_id") = to_lower (auth_agent_id req) ->
    verify header (auth_agent_id req) = true ->
    upload_body req = Some body ->
    (0 < Z.of_nat (List.length body) <= backupSizeLimit config)%Z ->
    getAgent db (auth_agent_id req) = Some agent ->
    DbAgent.status agent = "LIVING" \/ DbAgent.status agent = "RETURNED" ->
    last (backups_of db (auth_agent_id req)) = Some last_row ->
    ((clock_check req - DbBackup.received_at last_row < SECONDS_PER_DAY)%Z ->
       upload verify config db req
       = (UploadFailed 429 ("Daily backup limit reached. Try again in "
            ++ pretty (ceil_div (SECONDS_PER_DAY - (clock_check req - DbBackup.received_at last_row)) 3600)
            ++ " hour(s).")%string, db)) /\
    ((SECONDS_PER_DAY <= clock_check req - DbBackup.received_at last_row)%Z ->
       upload verify config db req = accept_backup db req header body)) /\
  (forall (req : UploadRequest) (backup_id : string) (backup_seq : Z) (arweave_tx_id : string)
          (size_bytes received_at : Z),
    fst (upload verify config db req)
      = UploadAccepted backup_id backup_seq arweave_tx_id size_bytes received_at ->
    exists row, last (backups_of (snd (upload verify config db req)) (auth_agent_id req)) = Some row /\
                DbBackup.received_at row = received_at /\ received_at = clock_recv req).
Proof.
  split.
  - intros req header body agent last_row Hhdr Hvalid Hid Hsig Hbody Hsize Hagent Hstatus Hlast.
    assert (Hdl : daily_limit db (auth_agent_id req) (clock_check req)
                  = if (clock_check req - DbBackup.received_at last_row <? SECONDS_PER_DAY)%Z
                    then Some (ceil_div (SECONDS_PER_DAY - (clock_check req - DbBackup.received_at last_row)) 3600)
                    else None).
    { unfold daily_limit. rewrite getLatestBackup_reachable, Hlast by exact Hreach. reflexivity. }
    assert (Hgate : negb (DbAgent.status agent =? "LIVING") && negb (DbAgent.status agent =? "RETURNED")
                    = false) by (destruct Hstatus as [-> | ->]; reflexivity).
    unfold upload. rewrite Hhdr, Hvalid, Hid, String.eqb_refl, Hsig, Hbody, Hagent, Hgate, Hdl. simpl.
    destruct (Z.eqb_spec (Z.of_nat (List.length body)) 0); [lia|].
    destruct (Z.ltb_spec (backupSizeLimit config) (Z.of_nat (List.length body))); [lia|].
    split; intros Hd.
    + destruct (Z.ltb_spec (clock_check req - DbBackup.received_at last_row) SECONDS_PER_DAY);
        [reflexivity|lia].
    + destruct (Z.ltb_spec (clock_check req - DbBackup.received_at last_row) SECONDS_PER_DAY);
        [lia|reflexivity].
  - intros req bid bseq tx size ra Hacc.
    destruct (upload_outcome verify config db req) as [[_ Hnot]|[row (Hdb & Hagent & _ & Hra & Hfst)]].
    + rewrite Hacc in Hnot. contradiction.
    + rewrite Hacc in Hfst. injection Hfst as _ _ _ _ Hra'. subst ra.
      exists row. rewrite Hdb, backups_of_append, Hagent, String.eqb_refl, last_snoc.
      split; [reflexivity|]. split; [exact Hra|reflexivity].
Qed.

(** ** Registration *)

(** Claim C5 (as the code has it): a successful registration stores, as
    the agent id, [normalizeAddress] of the [agentId] the caller sent in the
    request body, which must pass [isValidAddress] and must not be
    registered yet.  The request carries no signing key or signature. *)
Theorem register_stores_normalized_body_id (isValidAddress : string -> bool)
    (normalizeAddress : string -> string) (db : SanctuaryDb) (req : RegisterRequest)
    (agent_id : string) (registered_at : Z) (status : string) (db' : SanctuaryDb)
    (Hreg : register isValidAddress normalizeAddress db req = (Registered agent_id registered_at status, db')) :
  exists body_id,
    body_agentId req = Some body_id /\
    isValidAddress body_id = true /\
    agent_id = normalizeAddress body_id /\
    getAgent db agent_id = None /\
    option_map DbAgent.agent_id (getAgent db' agent_id) = Some agent_id.
Proof.
  unfold register, createAgent in Hreg.
  destruct (reg_jwt req) as [|type githubId]; [discriminate|].
  destruct (_ || falsy_str githubId); [discriminate|].
  destruct (body_agentId req) as [body_id|] eqn:Hb;
    [|simpl in Hreg; repeat case_match; discriminate].
  exists body_id. simpl in Hreg.
  destruct (isValidAddress body_id) eqn:Hv;
    [|simpl in Hreg; rewrite orb_true_r in Hreg; discriminate].
  repeat case_match; simplify_eq/=.
  all: split; [reflexivity|]; split; [reflexivity|]; split; [reflexivity|].
  all: split; [assumption|].
  all: unfold getAgent, set_agents; cbn [agents]; rewrite lookup_insert_eq; reflexivity.
Qed.

(** Claim C5 refuted: one caller (same GitHub login, same keys) can register
    either of two different addresses; the stored id is the one it sends. *)
Lemma register_agent_id_chosen_by_caller :
  fst (register isValidAddress_model normalizeAddress_model db_user_only (register_req addr_a))
    = Registered addr_a 1700000000 "LIVING" /\
  fst (register isValidAddress_model normalizeAddress_model db_user_only (register_req addr_b))
    = Registered addr_b 1700000000 "LIVING" /\
  addr_a <> addr_b.
Proof. split; [vm_compute; reflexivity|]. split; [vm_compute; reflexivity|]. discriminate. Qed.

(** ** Read routes: own agent only *)

(** Claim C10 (as the code has it): when the normalised requested id differs
    from the caller's id (ignoring case for the two backup routes, exactly
    for the proof route), the reply is 400 "Invalid agent ID" if the
    requested id is not a valid address and 403 otherwise; no backup or
    proof data is returned. *)
Theorem read_routes_own_agent_only (isValidAddress : string -> bool)
    (normalizeAddress : string -> string) (number_to_json : Q -> string)
    (sha256_hex : string -> string) (hmac_sha256_hex : string -> string -> string)
    (config : Config) (db : SanctuaryDb) (callerId agentId : string) (limit : option Z) (now : Z) :
  (to_lower (normalizeAddress agentId) <> to_lower callerId ->
     listBackups isValidAddress normalizeAddress db callerId agentId limit
     = (if isValidAddress agentId then ListFailed 403 "Cannot list backups for another agent"
        else ListFailed 400 "Invalid agent ID") /\
     latestBackup isValidAddress normalizeAddress db callerId agentId
     = (if isValidAddress agentId then LatestFailed 403 "Cannot view backups for another agent"
        else LatestFailed 400 "Invalid agent ID")) /\
  (normalizeAddress agentId <> callerId ->
     proof isValidAddress normalizeAddress number_to_json sha256_hex hmac_sha256_hex
           config db callerId agentId now
     = (if isValidAddress agentId then ProofFailed 403 "Can only generate proof for your own agent"
        else ProofFailed 400 "Invalid agent ID")).
Proof.
  split.
  - intros Hne. unfold listBackups, latestBackup.
    destruct (isValidAddress agentId); simpl; [|split; reflexivity].
    apply String.eqb_neq in Hne. rewrite Hne. split; reflexivity.
  - intros Hne. unfold proof.
    destruct (isValidAddress agentId); simpl; [|reflexivity].
    apply String.eqb_neq in Hne. rewrite Hne. reflexivity.
Qed.

(** Claim C10 refuted: a request for an id that is not an address fails
    with the 400 validation reply, not with an authorization error. *)
Lemma read_routes_invalid_id_is_validation_error :
  latestBackup isValidAddress_model normalizeAddress_model (db_with_agent "LIVING") addr_a "foo"
    = LatestFailed 400 "Invalid agent ID" /\
  listBackups isValidAddress_model normalizeAddress_model (db_with_agent "LIVING") addr_a "foo" None
    = ListFailed 400 "Invalid agent ID" /\
  "foo" <> addr_a.
Proof. split; [reflexivity|]. split; [reflexivity|]. discriminate. Qed.

(** ** Header validation *)

(** Claim C1 refuted: [validateBackupHeader] accepts a header without
    [manifest_version] and [prev_backup_hash], so the upload handler goes on
    to the signature check: the reply is then decided by the signature (403
    when it fails, 201 when it verifies), never by a validation error. *)
Theorem validate_header_misses_version_and_prev :
  validateBackupHeader (Some header_without_version_and_prev) = None /\
  member (Some header_without_version_and_prev) "manifest_version" = None /\
  member (Some header_without_version_and_prev) "prev_backup_hash" = None /\
  upload (fun _ _ => false) config0 (db_with_agent "LIVING")
         (upload_req (HeaderDecoded header_without_version_and_prev) 1700000000 "t1" "u1")
    = (UploadFailed 403 "Invalid backup header signature", db_with_agent "LIVING") /\
  fst (upload (fun _ _ => true) config0 (db_with_agent "LIVING")
         (upload_req (HeaderDecoded header_without_version_and_prev) 1700000000 "t1" "u1"))
    = UploadAccepted "u1" 1 "simulated_t1" 3 1700000000.
Proof. repeat split; reflexivity. Qed.

(** ** The serialised payload determines its fields *)

Lemma sapp_cons (c : ascii) (s t : string) : (String c s ++ t)%string = String c (s ++ t)%string.
Proof. reflexivity. Qed.

Lemma sapp_nil_l (t : string) : ("" ++ t)%string = t.
Proof. reflexivity. Qed.

Lemma sapp_assoc (a b c : string) : ((a ++ b) ++ c)%string = (a ++ (b ++ c))%string.
Proof. induction a as [|x a IH]; [reflexivity|]. rewrite !sapp_cons, IH. reflexivity. Qed.

Lemma sapp_cancel_l (s a b : string) : (s ++ a)%string = (s ++ b)%string -> a = b.
Proof.
  induction s as [|x s IH]; [auto|]. rewrite !sapp_cons. intros H. injection H. auto.
Qed.

Lemma slen_app (a b : string) : String.length (a ++ b) = (String.length a + String.length b)%nat.
Proof. induction a as [|x a IH]; [reflexivity|]. rewrite sapp_cons. simpl. lia. Qed.

Ltac ascii_cases c :=
  destruct c as [b0 b1 b2 b3 b4 b5 b6 b7];
  destruct b0, b1, b2, b3, b4, b5, b6, b7.

Lemma escape_char_head (c : ascii) :
  exists c0 rest, json_escape_char c = String c0 rest /\ Ascii.eqb c0 dquote = false.
Proof. ascii_cases c; eexists _, _; split; reflexivity. Qed.

Lemma unesc_escape_char (c : ascii) (r : string) :
  unesc (json_escape_char c ++ r) = Some (c, r).
Proof. ascii_cases c; reflexivity. Qed.

Lemma length_escape (s : string) : (String.length s <= String.length (json_escape s))%nat.
Proof.
  induction s as [|c s IH]; [simpl; lia|]. simpl json_escape. rewrite slen_app.
  destruct (escape_char_head c) as (c0 & rest & -> & _). simpl. lia.
Qed.

Lemma unquote_escape (s r : string) (fuel : nat) :
  (String.length s < fuel)%nat ->
  unquote fuel (json_escape s ++ String dquote r) = Some (s, r).
Proof.
  revert fuel. induction s as [|c s IH]; intros fuel Hf.
  - destruct fuel; [lia|]. reflexivity.
  - destruct fuel as [|fuel]; [lia|]. simpl json_escape. rewrite sapp_assoc.
    destruct (escape_char_head c) as (c0 & rest & Hc & Hq).
    cbn [unquote]. rewrite Hc, sapp_cons, Hq, <- sapp_cons, <- Hc, unesc_escape_char.
    rewrite IH by (simpl in Hf; lia). reflexivity.
Qed.

Lemma read_quote (s r : string) : read_value (json_quote s ++ r) = Some (TokStr s, r).
Proof.
  unfold json_quote. rewrite sapp_cons, sapp_assoc. cbn [read_value].
  change (Ascii.eqb dquote dquote) with true. cbv iota.
  rewrite sapp_cons, sapp_nil_l, unquote_escape; [reflexivity|].
  rewrite slen_app. pose proof (length_escape s). simpl. lia.
Qed.

Lemma number_char_not_delim (a : ascii) :
  is_number_char a = true ->
  Ascii.eqb a ","%char = false /\ Ascii.eqb a "}"%char = false /\ Ascii.eqb a dquote = false.
Proof. ascii_cases a; vm_compute; first [discriminate | intros _; repeat split]. Qed.

Lemma take_token_number (t r : string) :
  forallb is_number_char (list_ascii_of_string t) = true ->
  (exists r', r = String ","%char r' \/ r = String "}"%char r') ->
  take_token (t ++ r) = (t, r).
Proof.
  intros Ht (r' & Hr). induction t as [|a t IH].
  - destruct Hr as [-> | ->]; reflexivity.
  - simpl in Ht. apply andb_true_iff in Ht as [Ha Ht].
    destruct (number_char_not_delim a Ha) as (H1 & H2 & _).
    rewrite sapp_cons. simpl. rewrite H1, H2. simpl. rewrite IH by exact Ht. reflexivity.
Qed.

Lemma classify_number (t : string) :
  forallb is_number_char (list_ascii_of_string t) = true -> classify t = TokNum t.
Proof.
  intros Ht. unfold classify.
  destruct (String.eqb_spec t "null") as [->|_]; [discriminate|].
  destruct (String.eqb_spec t "true") as [->|_]; [discriminate|].
  destruct (String.eqb_spec t "false") as [->|_]; [discriminate|].
  reflexivity.
Qed.

Section ReadBack.
Variable number_to_json : Q -> string.
Hypothesis number_chars :
    forall q, forallb is_number_char (list_ascii_of_string (number_to_json q)) = true.
Hypothesis number_inj : forall a b, number_to_json a = number_to_json b -> (a == b)%Q.

Lemma read_value_flat (v : json) (tk : json_token) (r : string) :
    token_of number_to_json v = Some tk ->
    (exists r', r = String ","%char r' \/ r = String "}"%char r') ->
    read_value (JSON_stringify number_to_json v ++ r) = Some (tk, r).
  Proof.
    intros Htk Hr. destruct v as [| b | n | s | items | ms]; simpl in Htk; simplify_eq.
    - destruct Hr as (r' & [-> | ->]); reflexivity.
    - destruct Hr as (r' & [-> | ->]); destruct b; reflexivity.
    - cbn [JSON_stringify].
      assert (Hbare : read_value (number_to_json n ++ r) = read_bare (number_to_json n ++ r)).
      { destruct (number_to_json n) as [|a t] eqn:Hn.
        - destruct Hr as (r' & [-> | ->]); reflexivity.
        - pose proof (number_chars n) as Hc. rewrite Hn in Hc. simpl in Hc.
          apply andb_true_iff in Hc as [Ha _].
          destruct (number_char_not_delim a Ha) as (_ & _ & Hq).
          rewrite sapp_cons. cbn [read_value]. rewrite Hq. reflexivity. }
      rewrite Hbare. unfold read_bare.
      rewrite take_token_number by auto. rewrite classify_number by auto. reflexivity.
    - apply read_quote.
  Qed.

Lemma token_equiv (v v' : json) (tk : json_token) :
    token_of number_to_json v = Some tk -> token_of number_to_json v' = Some tk ->
    json_equiv v v'.
  Proof.
    destruct v, v'; simpl; intros H1 H2; simplify_eq; try reflexivity.
    apply number_inj. congruence.
  Qed.

Definition members_tail (ms : list (string * json)) : string :=
    match ms with
    | [] => "}"
    | _ => "," ++ join "," (map (member_str number_to_json) ms) ++ "}"
    end.

Lemma join_members_cons (m : string * json) (ms : list (string * json)) :
    (join "," (map (member_str number_to_json) (m :: ms)) ++ "}")%string
    = (member_str number_to_json m ++ members_tail ms)%string.
  Proof. destruct ms; simpl; [reflexivity|]. rewrite !sapp_assoc. reflexivity. Qed.

Lemma members_tail_delim (ms : list (string * json)) :
    exists r', members_tail ms = String ","%char r' \/ members_tail ms = String "}"%char r'.
  Proof. destruct ms; simpl; eauto. Qed.

Lemma flat_token (v : json) : flat_json v = true -> exists tk, token_of number_to_json v = Some tk.
  Proof. destruct v; simpl; try discriminate; eauto. Qed.

Lemma members_inj (ms ms' : list (string * json)) :
    map fst ms = map fst ms' ->
    Forall (fun kv => flat_json (snd kv) = true) ms ->
    Forall (fun kv => flat_json (snd kv) = true) ms' ->
    (join "," (map (member_str number_to_json) ms) ++ "}")%string
    = (join "," (map (member_str number_to_json) ms') ++ "}")%string ->
    fields_equiv ms ms'.
  Proof.
    revert ms'. induction ms as [|[k v] ms IH]; intros [|[k' v'] ms'] Hk Hf Hf' Hs;
      simpl in Hk; try discriminate; [constructor|].
    injection Hk as <- Hk. inversion Hf as [|? ? Hv Hfs]; subst.
    inversion Hf' as [|? ? Hv' Hfs']; subst.
    rewrite !join_members_cons in Hs. unfold member_str in Hs. cbn [fst snd] in Hs.
    rewrite !sapp_assoc in Hs. apply sapp_cancel_l in Hs.
    rewrite !sapp_cons, !sapp_nil_l in Hs. injection Hs as Hs.
    destruct (flat_token v Hv) as [tk Htk]. destruct (flat_token v' Hv') as [tk' Htk'].
    pose proof (read_value_flat v tk (members_tail ms) Htk (members_tail_delim ms)) as R.
    pose proof (read_value_flat v' tk' (members_tail ms') Htk' (members_tail_delim ms')) as R'.
    rewrite Hs, R' in R. injection R as <- Htail.
    constructor; [split; [reflexivity|]; eapply token_equiv; eauto|].
    apply IH; auto.
    destruct ms, ms'; simpl in Hk, Htail |- *; try discriminate; [reflexivity|].
    rewrite !sapp_cons, !sapp_nil_l in Htail. injection Htail as Htail. symmetry; exact Htail.
  Qed.

Lemma stringify_obj_inj (ms ms' : list (string * json)) :
    map fst ms = map fst ms' ->
    Forall (fun kv => flat_json (snd kv) = true) ms ->
    Forall (fun kv => flat_json (snd kv) = true) ms' ->
    JSON_stringify number_to_json (JObj ms) = JSON_stringify number_to_json (JObj ms') ->
    fields_equiv ms ms'.
  Proof.
    intros Hk Hf Hf' Hs. cbn [JSON_stringify] in Hs. rewrite !sapp_cons, !sapp_nil_l in Hs.
    injection Hs as Hs. apply members_inj; auto.
  Qed.
End ReadBack.

Lemma proof_payload_flat (config : Config) (db : SanctuaryDb) (agent : DbAgent.t) (now : Z) :
  Forall (fun kv => flat_json (snd kv) = true) (proof_payload config db agent now).
Proof. unfold proof_payload. repeat constructor; simpl; repeat case_match; reflexivity. Qed.

(** ** The proof route *)

(** Claim C4: an issued proof carries the ten payload fields in
    alphabetical order, [proof_hash] is the digest of the payload's
    [JSON.stringify] and [server_signature] the keyed digest of [proof_hash]
    under [jwtSecret].  The recomputation of the third-party check accepts
    the proof as issued, and rejects it once a field is changed to any other
    scalar value (numbers compared as numbers) without re-signing, when the
    digest has no collisions and the number printer is injective and prints
    only number characters. *)
Theorem proof_payload_hash_and_signature
    (isValidAddress : string -> bool) (normalizeAddress : string -> string)
    (number_to_json : Q -> string) (sha256_hex : string -> string)
    (hmac_sha256_hex : string -> string -> string)
    (Hsha : forall x y, sha256_hex x = sha256_hex y -> x = y)
    (Hnum_inj : forall a b, number_to_json a = number_to_json b -> (a == b)%Q)
    (Hnum_chars : forall q, forallb is_number_char (list_ascii_of_string (number_to_json q)) = true)
    (config : Config) (db : SanctuaryDb) (callerId agentId : string) (now : Z)
    (payload : list (string * json)) (proof_hash server_signature verify_url : string)
    (Hissued : proof isValidAddress normalizeAddress number_to_json sha256_hex hmac_sha256_hex
                 config db callerId agentId now
               = ProofIssued payload proof_hash server_signature verify_url) :
  map fst payload = ["agent_id"; "backup_count"; "chain_id"; "contract_address"; "issued_at";
                     "last_heartbeat"; "registered_at"; "status"; "trust_level"; "trust_score"] /\
  ascending (map fst payload) = true /\
  proof_hash = sha256_hex (JSON_stringify number_to_json (JObj payload)) /\
  server_signature = hmac_sha256_hex (jwtSecret config) proof_hash /\
  verifyProof number_to_json sha256_hex hmac_sha256_hex (jwtSecret config)
              payload proof_hash server_signature = true /\
  (forall payload',
     map fst payload' = map fst payload ->
     Forall (fun kv => flat_json (snd kv) = true) payload' ->
     ~ fields_equiv payload payload' ->
     verifyProof number_to_json sha256_hex hmac_sha256_hex (jwtSecret config)
                 payload' proof_hash server_signature = false).
Proof.
  unfold proof in Hissued.
  destruct (isValidAddress agentId); simpl in Hissued; [|discriminate].
  destruct (String.eqb (normalizeAddress agentId) callerId); simpl in Hissued; [|discriminate].
  destruct (getAgent db (normalizeAddress agentId)) as [agent|]; [|discriminate].
  injection Hissued as <- <- <- _.
  split; [reflexivity|]. split; [reflexivity|].
  split; [reflexivity|]. split; [reflexivity|].
  split.
  - unfold verifyProof. rewrite !String.eqb_refl. reflexivity.
  - intros payload' Hkeys Hflat Hne. unfold verifyProof.
    match goal with
    | |- (String.eqb ?a ?b && _)%bool = false => destruct (String.eqb_spec a b) as [E|_]
    end; [|reflexivity].
    exfalso. apply Hne. apply Hsha in E.
    apply (stringify_obj_inj number_to_json Hnum_chars Hnum_inj); auto using proof_payload_flat.
Qed.

(** ** The concrete printer and digests *)

Lemma list_ascii_app (a b : string) :
  list_ascii_of_string (a ++ b) = list_ascii_of_string a ++ list_ascii_of_string b.
Proof. induction a as [|c a IH]; [reflexivity|]. rewrite sapp_cons. simpl. rewrite IH. reflexivity. Qed.

Lemma bin_digits_chars (p : positive) :
  forallb is_number_char (list_ascii_of_string (bin_digits p)) = true.
Proof. induction p; simpl; auto. Qed.

Lemma bin_digits_dot (p q : positive) (u v : string) :
  (bin_digits p ++ String "." u)%string = (bin_digits q ++ String "." v)%string -> p = q /\ u = v.
Proof.
  revert q. induction p as [p IH|p IH|]; intros [q|q|] H; simpl in H;
    rewrite ?sapp_cons in H; try discriminate; injection H as H.
  all: try (destruct (IH q H) as [-> ->]; split; reflexivity).
  split; [reflexivity | exact H].
Qed.

Lemma z_digits_dot (a b : Z) (u v : string) :
  (z_digits a ++ String "." u)%string = (z_digits b ++ String "." v)%string -> a = b /\ u = v.
Proof.
  destruct a as [|p|p], b as [|q|q]; simpl; rewrite ?sapp_cons; intros H;
    try discriminate; injection H as H; try (split; [reflexivity | exact H]).
  all: destruct (bin_digits_dot p q u v H) as [-> ->]; split; reflexivity.
Qed.

Lemma bin_digits_inj (p q : positive) : bin_digits p = bin_digits q -> p = q.
Proof.
  revert q. induction p as [p IH|p IH|]; intros [q|q|] H; simpl in H;
    try discriminate; try reflexivity; injection H as H; f_equal; auto.
Qed.

Lemma number_to_json_example_inj (a b : Q) :
  number_to_json_example a = number_to_json_example b -> (a == b)%Q.
Proof.
  unfold number_to_json_example. intros H.
  destruct (z_digits_dot _ _ _ _ H) as [Hn Hd].
  apply bin_digits_inj in Hd.
  rewrite <- (Qred_correct a), <- (Qred_correct b).
  destruct (Qred a) as [na da], (Qred b) as [nb db]. simpl in Hn, Hd. subst. reflexivity.
Qed.

Lemma number_to_json_example_chars (q : Q) :
  forallb is_number_char (list_ascii_of_string (number_to_json_example q)) = true.
Proof.
  unfold number_to_json_example. rewrite list_ascii_app, forallb_app.
  apply andb_true_iff. split.
  - destruct (Qnum (Qred q)); simpl; rewrite ?bin_digits_chars; reflexivity.
  - simpl. apply bin_digits_chars.
Qed.

Lemma sha256_example_inj (x y : string) : sha256_example x = sha256_example y -> x = y.
Proof. unfold sha256_example. auto. Qed.

(** Witness of C4: the proof issued by [db_for_proof] for its agent. *)
Lemma proof_payload_hash_and_signature_witness :
  exists payload h s u,
    proof_example = ProofIssued payload h s u /\
    map fst payload = ["agent_id"; "backup_count"; "chain_id"; "contract_address"; "issued_at";
                       "last_heartbeat"; "registered_at"; "status"; "trust_level"; "trust_score"] /\
    ascending (map fst payload) = true /\
    h = sha256_example (JSON_stringify number_to_json_example (JObj payload)) /\
    s = hmac_example (jwtSecret config0) h /\
    verifyProof number_to_json_example sha256_example hmac_example (jwtSecret config0) payload h s = true /\
    (forall payload',
       map fst payload' = map fst payload ->
       Forall (fun kv => flat_json (snd kv) = true) payload' ->
       ~ fields_equiv payload payload' ->
       verifyProof number_to_json_example sha256_example hmac_example (jwtSecret config0)
                   payload' h s = false).
Proof.
  destruct proof_example as [c e | payload h s u] eqn:E; [vm_compute in E; discriminate|].
  exists payload, h, s, u. split; [reflexivity|].
  exact (proof_payload_hash_and_signature isValidAddress_model normalizeAddress_model
           number_to_json_example sha256_example hmac_example
           sha256_example_inj number_to_json_example_inj number_to_json_example_chars
           config0 db_for_proof addr_a addr_a 1700000000 payload h s u E).
Defined.

(** ** Witnesses *)

(** Witness of C8: the second note under hash [0xh1] keeps the first. *)
Lemma createAttestationNote_idempotent_witness :
  DbAttestationNote.hash note_a' = DbAttestationNote.hash note_a /\
  createAttestationNote (createAttestationNote (db_with_agent "LIVING") note_a) note_a'
    = createAttestationNote (db_with_agent "LIVING") note_a /\
  option_map DbAttestationNote.content
    (getAttestationNote (createAttestationNote (createAttestationNote (db_with_agent "LIVING") note_a) note_a')
                        (DbAttestationNote.hash note_a))
  = Some (DbAttestationNote.content
            (match getAttestationNote (db_with_agent "LIVING") (DbAttestationNote.hash note_a) with
             | Some original => original
             | None => note_a
             end)).
Proof.
  assert (Hhash : DbAttestationNote.hash note_a' = DbAttestationNote.hash note_a) by reflexivity.
  split; [exact Hhash|].
  exact (createAttestationNote_idempotent (db_with_agent "LIVING") note_a note_a' Hhash).
Defined.

(** Witness of C6: a FALLEN agent's upload with a valid, signed header. *)
Lemma upload_requires_living_or_returned_witness :
  (match getAgent (db_with_agent "FALLEN") "0xa1" with
   | Some agent => DbAgent.status agent <> "LIVING" /\ DbAgent.status agent <> "RETURNED"
   | None => True
   end) /\
  exists code error,
    upload (fun _ _ => true) config0 (db_with_agent "FALLEN")
           (upload_req (HeaderDecoded header_without_version_and_prev) 1700000000 "t1" "u1")
    = (UploadFailed code error, db_with_agent "FALLEN").
Proof.
  assert (Hstatus : match getAgent (db_with_agent "FALLEN") "0xa1" with
                    | Some agent => DbAgent.status agent <> "LIVING" /\ DbAgent.status agent <> "RETURNED"
                    | None => True
                    end) by (vm_compute; split; discriminate).
  split; [exact Hstatus|].
  exact (upload_requires_living_or_returned (fun _ _ => true) config0 (db_with_agent "FALLEN")
           (upload_req (HeaderDecoded header_without_version_and_prev) 1700000000 "t1" "u1") Hstatus).
Defined.

Lemma db_after_first_upload_reachable : reachable db_after_first_upload.
Proof. apply reach_upload, reach_init. Qed.

(** Witness of C3: the store after one accepted upload, and the sequence
    number the next accepted upload of the agent gets. *)
Lemma backup_seq_assignment_witness :
  reachable db_after_first_upload /\
  seq_gapless db_after_first_upload /\
  max_seq db_after_first_upload "0xa1" = 1%Z /\
  (forall backup_id backup_seq arweave_tx_id size_bytes received_at,
     fst (upload (fun _ _ => true) config0 db_after_first_upload
            (upload_req (HeaderDecoded header_without_version_and_prev) 1700090000 "t2" "u2"))
     = UploadAccepted backup_id backup_seq arweave_tx_id size_bytes received_at ->
     backup_seq = 2%Z).
Proof.
  pose proof db_after_first_upload_reachable as H.
  destruct (backup_seq_assignment db_after_first_upload H) as [Hg Hnext].
  split; [exact H|]. split; [exact Hg|].
  assert (Hmax : max_seq db_after_first_upload "0xa1" = 1%Z) by (vm_compute; reflexivity).
  split; [exact Hmax|].
  intros bid bseq tx size ra Hacc.
  destruct (Hnext _ _ _ bid bseq tx size ra Hacc) as [Hseq _].
  rewrite Hseq. exact (f_equal (fun m => (m + 1)%Z) Hmax).
Defined.

(** Witness of C2: one hour after the first backup the agent is told to
    wait 23 more hours. *)
Lemma upload_daily_limit_witness :
  reachable db_after_first_upload /\
  upload (fun _ _ => true) config0 db_after_first_upload
         (upload_req (HeaderDecoded header_without_version_and_prev) 1700003600 "t2" "u2")
  = (UploadFailed 429 "Daily backup limit reached. Try again in 23 hour(s).", db_after_first_upload).
Proof.
  pose proof db_after_first_upload_reachable as H.
  split; [exact H|].
  destruct (upload_daily_limit (fun _ _ => true) config0 db_after_first_upload H) as [Hgate _].
  assert (Hag : getAgent db_after_first_upload "0xa1" = Some (agent_a1 "LIVING"))
    by (vm_compute; reflexivity).
  assert (Hlast : last (backups_of db_after_first_upload "0xa1")
                  = Some (DbBackup.mk "u1" "0xa1" "simulated_t1" 1
                            (header_timestamp header_without_version_and_prev 1700000000)
                            1700000000 3 "0xmh"))
    by (vm_compute; reflexivity).
  assert (Hsize : (0 < Z.of_nat (List.length [Byte.x01; Byte.x02; Byte.x03]) <= backupSizeLimit config0)%Z)
    by (split; vm_compute; [reflexivity | intros Hc; discriminate Hc]).
  destruct (Hgate (upload_req (HeaderDecoded header_without_version_and_prev) 1700003600 "t2" "u2")
              header_without_version_and_prev [Byte.x01; Byte.x02; Byte.x03] (agent_a1 "LIVING")
              _ eq_refl eq_refl eq_refl eq_refl eq_refl Hsize Hag (or_introl eq_refl) Hlast)
    as [H429 _].
  rewrite H429 by (vm_compute; reflexivity).
  vm_compute; reflexivity.
Defined.

(** Witness of C5: the registration of [addr_a] by user [gh1]. *)
Lemma register_stores_normalized_body_id_witness :
  register isValidAddress_model normalizeAddress_model db_user_only (register_req addr_a)
    = (Registered addr_a 1700000000 "LIVING",
       snd (register isValidAddress_model normalizeAddress_model db_user_only (register_req addr_a))) /\
  exists body_id,
    body_agentId (register_req addr_a) = Some body_id /\
    isValidAddress_model body_id = true /\
    addr_a = normalizeAddress_model body_id /\
    getAgent db_user_only addr_a = None /\
    option_map DbAgent.agent_id
      (getAgent (snd (register isValidAddress_model normalizeAddress_model db_user_only (register_req addr_a))) addr_a)
    = Some addr_a.
Proof.
  assert (E : register isValidAddress_model normalizeAddress_model db_user_only (register_req addr_a)
              = (Registered addr_a 1700000000 "LIVING",
                 snd (register isValidAddress_model normalizeAddress_model db_user_only (register_req addr_a))))
    by (vm_compute; reflexivity).
  split; [exact E|].
  exact (register_stores_normalized_body_id isValidAddress_model normalizeAddress_model db_user_only
           (register_req addr_a) addr_a 1700000000 "LIVING" _ E).
Defined.

(** Witness of C10: caller [addr_a] asks for the data of [addr_b]. *)
Lemma read_routes_own_agent_only_witness :
  to_lower (normalizeAddress_model addr_b) <> to_lower addr_a /\
  listBackups isValidAddress_model normalizeAddress_model (db_with_agent "LIVING") addr_a addr_b None
    = ListFailed 403 "Cannot list backups for another agent" /\
  latestBackup isValidAddress_model normalizeAddress_model (db_with_agent "LIVING") addr_a addr_b
    = LatestFailed 403 "Cannot view backups for another agent" /\
  normalizeAddress_model addr_b <> addr_a /\
  proof isValidAddress_model normalizeAddress_model number_to_json_example sha256_example hmac_example
        config0 db_for_proof addr_a addr_b 1700000000
    = ProofFailed 403 "Can only generate proof for your own agent".
Proof.
  assert (H1 : to_lower (normalizeAddress_model addr_b) <> to_lower addr_a)
    by (intros H; vm_compute in H; discriminate H).
  assert (H2 : normalizeAddress_model addr_b <> addr_a)
    by (intros H; vm_compute in H; discriminate H).
  destruct (read_routes_own_agent_only isValidAddress_model normalizeAddress_model
              number_to_json_example sha256_example hmac_example config0 (db_with_agent "LIVING")
              addr_a addr_b None 1700000000) as [HL _].
  destruct (read_routes_own_agent_only isValidAddress_model normalizeAddress_model
              number_to_json_example sha256_example hmac_example config0 db_for_proof
              addr_a addr_b None 1700000000) as [_ HP].
  destruct (HL H1) as [A B].
  split; [exact H1|]. split; [rewrite A; reflexivity|]. split; [rewrite B; reflexivity|].
  split; [exact H2|]. rewrite (HP H2). reflexivity.
Defined.

(** ** Latest-row queries *)

Section LatestBy.
Context {A : Type} (owner : A -> string) (key : A -> Z) (agentId : string).

Lemma latest_by_fold (l : list A) (acc : option A) (pre : list A) :
  latest_inv key acc pre ->
  latest_inv key (fold_left (latest_by_step owner key agentId) l acc) (pre ++ filter (fun x => owner x = agentId) l).
Proof.
  revert acc pre. induction l as [|x l IH]; intros acc pre Hinv; simpl.
  - rewrite filter_nil, app_nil_r. exact Hinv.
  - unfold latest_by_step at 2.
    destruct (String.eqb_spec (owner x) agentId) as [Hx|Hx].
    + rewrite filter_cons_True by exact Hx.
      replace (pre ++ x :: filter (fun x => owner x = agentId) l)
        with ((pre ++ [x]) ++ filter (fun x => owner x = agentId) l)
        by (rewrite <- app_assoc; reflexivity).
      apply IH. destruct Hinv as [Hnone Hsome]. split.
      * split; [|intros Hp; destruct pre; discriminate].
        destruct acc as [x0|]; [case_match|]; discriminate.
      * intros z Hz. destruct acc as [x0|].
        -- destruct (Hsome x0 eq_refl) as [Hin Hmax].
           destruct (Z.ltb_spec (key x0) (key x)); simplify_eq.
           ++ split; [set_solver|]. intros y Hy. apply elem_of_app in Hy as [Hy|Hy].
              ** specialize (Hmax y Hy). lia.
              ** apply list_elem_of_singleton in Hy. subst. lia.
           ++ split; [set_solver|]. intros y Hy. apply elem_of_app in Hy as [Hy|Hy].
              ** auto.
              ** apply list_elem_of_singleton in Hy. subst. lia.
        -- simplify_eq. assert (pre = []) as -> by (apply Hnone; reflexivity).
           split; [set_solver|]. intros y Hy. apply list_elem_of_singleton in Hy. subst. lia.
    + rewrite filter_cons_False by exact Hx. apply IH, Hinv.
Qed.

Lemma latest_by_spec (l : list A) :
  let rows := filter (fun x => owner x = agentId) l in
  (fold_left (latest_by_step owner key agentId) l None = None <-> rows = []) /\
  (forall x, fold_left (latest_by_step owner key agentId) l None = Some x ->
     x ∈ rows /\ forall y, y ∈ rows -> (key y <= key x)%Z).
Proof.
  intros rows.
  apply (latest_by_fold l None []).
  split; [split; reflexivity|]. intros x Hx. discriminate Hx.
Qed.
End LatestBy.

(** [ORDER BY backup_seq DESC LIMIT 1]: no row exactly when the agent has no
    backups; otherwise one of the agent's rows with the largest sequence
    number. *)
Theorem getLatestBackup_spec (db : SanctuaryDb) (agentId : string) :
  (getLatestBackup db agentId = None <-> backups_of db agentId = []) /\
  (forall b, getLatestBackup db agentId = Some b ->
     b ∈ backups_of db agentId /\
     forall b', b' ∈ backups_of db agentId -> (DbBackup.backup_seq b' <= DbBackup.backup_seq b)%Z).
Proof.
  exact (latest_by_spec DbBackup.agent_id DbBackup.backup_seq agentId (backups db)).
Qed.

(** [ORDER BY received_at DESC LIMIT 1] on heartbeats: no row exactly when
    the agent has no heartbeat; otherwise one of its heartbeats with the
    latest receipt time. *)
Theorem getLatestHeartbeat_spec (db : SanctuaryDb) (agentId : string) :
  let rows := filter (fun h => DbHeartbeat.agent_id h = agentId) (heartbeats db) in
  (getLatestHeartbeat db agentId = None <-> rows = []) /\
  (forall h, getLatestHeartbeat db agentId = Some h ->
     h ∈ rows /\
     forall h', h' ∈ rows -> (DbHeartbeat.received_at h' <= DbHeartbeat.received_at h)%Z).
Proof.
  exact (latest_by_spec DbHeartbeat.agent_id DbHeartbeat.received_at agentId (heartbeats db)).
Qed.

Lemma last_heartbeat_of_latest (db : SanctuaryDb) (agentId : string) :
  last_heartbeat_of db agentId = option_map DbHeartbeat.received_at (getLatestHeartbeat db agentId).
Proof.
  unfold last_heartbeat_of, getLatestHeartbeat.
  change None with (option_map DbHeartbeat.received_at (@None DbHeartbeat.t)) at 1.
  generalize (@None DbHeartbeat.t). induction (heartbeats db) as [|h l IH]; intros acc; simpl.
  - reflexivity.
  - rewrite <- IH. f_equal.
    destruct (String.eqb (DbHeartbeat.agent_id h) agentId); [|reflexivity].
    destruct acc as [h0|]; simpl; [|reflexivity].
    destruct (Z.ltb_spec (DbHeartbeat.received_at h0) (DbHeartbeat.received_at h)); simpl;
      f_equal; lia.
Qed.

Lemma last_heartbeat_of_bound (db : SanctuaryDb) (agentId : string) (cutoff : Z) :
  match last_heartbeat_of db agentId with
  | None => true
  | Some m => (m <? cutoff)%Z
  end = true <->
  forall h, h ∈ heartbeats db -> DbHeartbeat.agent_id h = agentId ->
    (DbHeartbeat.received_at h < cutoff)%Z.
Proof.
  rewrite last_heartbeat_of_latest.
  destruct (latest_by_spec DbHeartbeat.agent_id DbHeartbeat.received_at agentId (heartbeats db))
    as [Hnone Hsome].
  change (fold_left (latest_by_step DbHeartbeat.agent_id DbHeartbeat.received_at agentId)
            (heartbeats db) None) with (getLatestHeartbeat db agentId) in Hnone, Hsome.
  destruct (getLatestHeartbeat db agentId) as [h0|] eqn:E; simpl.
  - destruct (Hsome h0 eq_refl) as [Hin Hmax].
    apply list_elem_of_filter in Hin as [Hown Hin].
    rewrite Z.ltb_lt. split.
    + intros Hlt h Hh Hah. assert (h ∈ filter (fun x => DbHeartbeat.agent_id x = agentId) (heartbeats db))
        by (apply list_elem_of_filter; auto).
      specialize (Hmax h H). lia.
    + intros Hall. apply Hall; assumption.
  - split; [|reflexivity]. intros _ h Hh Hah.
    assert (h ∈ filter (fun x => DbHeartbeat.agent_id x = agentId) (heartbeats db))
      by (apply list_elem_of_filter; auto).
    rewrite (proj1 Hnone eq_refl) in H. apply not_elem_of_nil in H. contradiction.
Qed.

Lemma elem_of_getAllAgents (db : SanctuaryDb) (a : DbAgent.t) :
  a ∈ getAllAgents db <-> exists k, agents db !! k = Some a.
Proof.
  unfold getAllAgents. change (map snd (map_to_list (agents db))) with (snd <$> map_to_list (agents db)).
  rewrite list_elem_of_fmap. split.
  - intros [[k a'] [-> Hin]]. exists k. apply elem_of_map_to_list. exact Hin.
  - intros [k Hk]. exists (k, a). split; [reflexivity|]. apply elem_of_map_to_list. exact Hk.
Qed.

(** [getAgentsWithoutRecentHeartbeat] returns exactly the stored agents whose
    status is [LIVING] and none of whose heartbeats was received at or after
    [now - thresholdSeconds] (an agent that never sent one included). *)
Theorem getAgentsWithoutRecentHeartbeat_spec (db : SanctuaryDb) (thresholdSeconds now : Z)
    (a : DbAgent.t) :
  a ∈ getAgentsWithoutRecentHeartbeat db thresholdSeconds now <->
  (exists k, agents db !! k = Some a) /\ DbAgent.status a = "LIVING" /\
  forall h, h ∈ heartbeats db -> DbHeartbeat.agent_id h = DbAgent.agent_id a ->
    (DbHeartbeat.received_at h < now - thresholdSeconds)%Z.
Proof.
  unfold getAgentsWithoutRecentHeartbeat. rewrite list_elem_of_filter, elem_of_getAllAgents.
  rewrite andb_true_iff, String.eqb_eq, last_heartbeat_of_bound. tauto.
Qed.

Lemma fold_max_ge (l : list Z) (x : Z) : x ∈ l -> (x <= fold_right Z.max 0 l)%Z.
Proof.
  induction l as [|y l IH]; intros Hx; [apply not_elem_of_nil in Hx; contradiction|].
  simpl. apply elem_of_cons in Hx as [->|Hx]; [lia|]. specialize (IH Hx). lia.
Qed.

(** [createHeartbeat] fails exactly when the agent is not stored; otherwise it
    appends one row for the agent, with the given times, under an id larger
    than every id in the table, and touches no other table. *)
Theorem createHeartbeat_spec (db : SanctuaryDb) (agentId : string) (agentTimestamp receivedAt : Z)
    (signature : string) :
  (createHeartbeat db agentId agentTimestamp receivedAt signature = None <-> getAgent db agentId = None) /\
  forall db', createHeartbeat db agentId agentTimestamp receivedAt signature = Some db' ->
    (exists hb, heartbeats db' = heartbeats db ++ [hb] /\
       DbHeartbeat.agent_id hb = agentId /\ DbHeartbeat.agent_timestamp hb = agentTimestamp /\
       DbHeartbeat.received_at hb = receivedAt /\ DbHeartbeat.signature hb = signature /\
       forall h, h ∈ heartbeats db -> (DbHeartbeat.id h < DbHeartbeat.id hb)%Z) /\
    users db' = users db /\ agents db' = agents db /\ backups db' = backups db /\
    trust_scores db' = trust_scores db /\ attestation_notes db' = attestation_notes db.
Proof.
  unfold createHeartbeat. destruct (getAgent db agentId) as [a|].
  - split; [split; discriminate|]. intros db' E. injection E as <-. cbn.
    split; [|tauto].
    eexists. split; [reflexivity|]. cbn. do 4 (split; [reflexivity|]).
    intros h Hh. pose proof (fold_max_ge (map DbHeartbeat.id (heartbeats db)) (DbHeartbeat.id h)) as Hge.
    assert (DbHeartbeat.id h ∈ map DbHeartbeat.id (heartbeats db)).
    { change (map DbHeartbeat.id (heartbeats db)) with (DbHeartbeat.id <$> heartbeats db).
      apply list_elem_of_fmap_2. exact Hh. }
    specialize (Hge H). lia.
  - split; [tauto|]. intros db' E. discriminate E.
Qed.

(** A heartbeat received no earlier than [now - thresholdSeconds] takes its
    agent off the list of [getAgentsWithoutRecentHeartbeat]. *)
Theorem createHeartbeat_not_stale (db db' : SanctuaryDb) (agentId : string)
    (agentTimestamp receivedAt : Z) (signature : string) (thresholdSeconds now : Z) (a : DbAgent.t) :
  createHeartbeat db agentId agentTimestamp receivedAt signature = Some db' ->
  (now - thresholdSeconds <= receivedAt)%Z ->
  DbAgent.agent_id a = agentId ->
  a ∉ getAgentsWithoutRecentHeartbeat db' thresholdSeconds now.
Proof.
  unfold createHeartbeat. destruct (getAgent db agentId) as [a0|]; [|discriminate].
  intros E Hrecv Hid. injection E as <-.
  unfold getAgentsWithoutRecentHeartbeat. rewrite list_elem_of_filter.
  intros [Hsel _]. apply andb_true_iff in Hsel as [_ Hsel].
  apply (last_heartbeat_of_bound _ _ (now - thresholdSeconds)) with
    (h := DbHeartbeat.mk (fold_right Z.max 0%Z (map DbHeartbeat.id (heartbeats db)) + 1)%Z
            agentId agentTimestamp receivedAt signature) in Hsel.
  - simpl in Hsel. lia.
  - cbn. apply elem_of_app. right. apply list_elem_of_singleton. reflexivity.
  - simpl. symmetry. exact Hid.
Qed.

Lemma createHeartbeat_not_stale_witness :
  createHeartbeat (db_with_agent "LIVING") "0xa1" 1700000000 1700000000 "0xs" =
    Some (set_heartbeats (db_with_agent "LIVING") [DbHeartbeat.mk 1 "0xa1" 1700000000 1700000000 "0xs"]) /\
  (1700000000 - 600 <= 1700000000)%Z /\
  DbAgent.agent_id (agent_a1 "LIVING") = "0xa1" /\
  agent_a1 "LIVING" ∉ getAgentsWithoutRecentHeartbeat
    (set_heartbeats (db_with_agent "LIVING") [DbHeartbeat.mk 1 "0xa1" 1700000000 1700000000 "0xs"])
    600 1700000000.
Proof.
  split; [reflexivity|]. split; [lia|]. split; [reflexivity|].
  apply (createHeartbeat_not_stale (db_with_agent "LIVING") _ "0xa1" 1700000000 1700000000 "0xs");
    [reflexivity | lia | reflexivity].
Defined.

(** [updateAgentStatus] rewrites the status of the named agent, keeping its
    other columns, and leaves every other agent and every other table alone;
    an agent that is not stored is not created. *)
Theorem updateAgentStatus_spec (db : SanctuaryDb) (agentId status : string) :
  let db' := updateAgentStatus db agentId status in
  getAgent db' agentId =
    option_map (fun a => DbAgent.mk (DbAgent.agent_id a) (DbAgent.github_id a)
                           (DbAgent.recovery_pubkey a) (DbAgent.manifest_hash a)
                           (DbAgent.manifest_version a) (DbAgent.registered_at a) status)
      (getAgent db agentId) /\
  (forall k, k <> agentId -> getAgent db' k = getAgent db k) /\
  users db' = users db /\ heartbeats db' = heartbeats db /\ backups db' = backups db /\
  trust_scores db' = trust_scores db /\ attestation_notes db' = attestation_notes db.
Proof.
  unfold updateAgentStatus. destruct (getAgent db agentId) as [a|] eqn:E; cbn.
  - unfold getAgent, set_agents. cbn. rewrite lookup_insert_eq.
    split; [reflexivity|]. split; [|tauto].
    intros k Hk. rewrite lookup_insert_ne by congruence. reflexivity.
  - rewrite E. split; [reflexivity|]. tauto.
Qed.

(** [updateAgentManifest] rewrites the manifest hash and version of the named
    agent, keeping its other columns, and leaves every other agent and every
    other table alone. *)
Theorem updateAgentManifest_spec (db : SanctuaryDb) (agentId manifestHash : string)
    (manifestVersion : Z) :
  let db' := updateAgentManifest db agentId manifestHash manifestVersion in
  getAgent db' agentId =
    option_map (fun a => DbAgent.mk (DbAgent.agent_id a) (DbAgent.github_id a)
                           (DbAgent.recovery_pubkey a) manifestHash manifestVersion
                           (DbAgent.registered_at a) (DbAgent.status a))
      (getAgent db agentId) /\
  (forall k, k <> agentId -> getAgent db' k = getAgent db k) /\
  users db' = users db /\ heartbeats db' = heartbeats db /\ backups db' = backups db /\
  trust_scores db' = trust_scores db /\ attestation_notes db' = attestation_notes db.
Proof.
  unfold updateAgentManifest. destruct (getAgent db agentId) as [a|] eqn:E; cbn.
  - unfold getAgent, set_agents. cbn. rewrite lookup_insert_eq.
    split; [reflexivity|]. split; [|tauto].
    intros k Hk. rewrite lookup_insert_ne by congruence. reflexivity.
  - rewrite E. split; [reflexivity|]. tauto.
Qed.

(** [getAgentsByStatus] lists exactly the stored agents with that status;
    so after [updateAgentStatus] a stored agent is listed under its new
    status. *)
Theorem getAgentsByStatus_after_update (db : SanctuaryDb) (agentId status : string) (a : DbAgent.t) :
  getAgent db agentId = Some a ->
  exists a', a' ∈ getAgentsByStatus (updateAgentStatus db agentId status) status /\
    DbAgent.agent_id a' = DbAgent.agent_id a /\ DbAgent.github_id a' = DbAgent.github_id a /\
    DbAgent.manifest_hash a' = DbAgent.manifest_hash a.
Proof.
  intros E. unfold updateAgentStatus. rewrite E.
  exists (DbAgent.mk (DbAgent.agent_id a) (DbAgent.github_id a) (DbAgent.recovery_pubkey a)
            (DbAgent.manifest_hash a) (DbAgent.manifest_version a) (DbAgent.registered_at a) status).
  split; [|cbn; tauto].
  unfold getAgentsByStatus. apply list_elem_of_filter. split; [reflexivity|].
  apply elem_of_getAllAgents. exists agentId. unfold set_agents. cbn.
  apply lookup_insert_eq.
Qed.

Lemma getAgentsByStatus_after_update_witness :
  getAgent (db_with_agent "LIVING") "0xa1" = Some (agent_a1 "LIVING") /\
  exists a', a' ∈ getAgentsByStatus (updateAgentStatus (db_with_agent "LIVING") "0xa1" "DEAD") "DEAD" /\
    DbAgent.agent_id a' = DbAgent.agent_id (agent_a1 "LIVING") /\
    DbAgent.github_id a' = DbAgent.github_id (agent_a1 "LIVING") /\
    DbAgent.manifest_hash a' = DbAgent.manifest_hash (agent_a1 "LIVING").
Proof.
  split; [reflexivity|].
  apply (getAgentsByStatus_after_update (db_with_agent "LIVING") "0xa1" "DEAD" (agent_a1 "LIVING")).
  reflexivity.
Defined.

(** [getBackupsByAgent] returns rows of the agent only, in non-increasing
    [backup_seq] order; a negative limit returns all of them, otherwise the
    first [limit] of that order: any row left out has a sequence number no
    larger than every row returned. *)
Theorem getBackupsByAgent_spec (db : SanctuaryDb) (agentId : string) (limit : Z) :
  let r := getBackupsByAgent db agentId limit in
  StronglySorted backup_seq_desc r /\
  (forall b, b ∈ r -> b ∈ backups db /\ DbBackup.agent_id b = agentId) /\
  List.length r = (if (limit <? 0)%Z then List.length (backups_of db agentId)
              else Nat.min (Z.to_nat limit) (List.length (backups_of db agentId))) /\
  ((limit < 0)%Z -> r ≡ₚ backups_of db agentId) /\
  (forall b b', b ∈ r -> b' ∈ backups_of db agentId -> b' ∉ r ->
     (DbBackup.backup_seq b' <= DbBackup.backup_seq b)%Z).
Proof.
  unfold getBackupsByAgent, backups_of.
  set (rows := filter (fun b => DbBackup.agent_id b = agentId) (backups db)).
  pose proof (StronglySorted_merge_sort backup_seq_desc rows) as Hsorted.
  pose proof (merge_sort_Permutation backup_seq_desc rows) as Hperm.
  set (s := merge_sort backup_seq_desc rows) in *.
  assert (Hin : forall b, b ∈ s -> b ∈ backups db /\ DbBackup.agent_id b = agentId).
  { intros b Hb. rewrite Hperm in Hb. unfold rows in Hb.
    apply list_elem_of_filter in Hb. tauto. }
  destruct (Z.ltb_spec limit 0) as [Hneg|Hnn].
  - split; [exact Hsorted|]. split; [exact Hin|].
    split; [apply Permutation_length, Hperm|]. split; [intros _; exact Hperm|].
    intros b b' _ Hb' Hn. exfalso. apply Hn. rewrite Hperm. exact Hb'.
  - split.
    { rewrite <- (take_drop (Z.to_nat limit) s) in Hsorted.
      apply StronglySorted_app_1_l in Hsorted. exact Hsorted. }
    split.
    { intros b Hb. apply Hin. apply (elem_of_submseteq _ _ _ Hb), submseteq_take. }
    split.
    { rewrite length_take. rewrite (Permutation_length Hperm). reflexivity. }
    split; [lia|].
    intros b b' Hb Hb' Hn.
    rewrite <- Hperm in Hb'. rewrite <- (take_drop (Z.to_nat limit) s) in Hb'.
    apply elem_of_app in Hb' as [Hb'|Hb']; [contradiction|].
    rewrite <- (take_drop (Z.to_nat limit) s) in Hsorted.
    exact (StronglySorted_app_1_elem_of _ _ _ _ _ Hsorted Hb Hb').
Qed.




Lemma find_app_single {A} (f : A -> bool) (l : list A) (x : A) :
  List.find f (l ++ [x]) = match List.find f l with Some y => Some y | None => if f x then Some x else None end.
Proof. induction l as [|y l IH]; simpl; [reflexivity|]. destruct (f y); [reflexivity|exact IH]. Qed.

Lemma find_id_absent (l : list DbBackup.t) (i : string) :
  ~ Exists (fun b => DbBackup.id b = i) l ->
  List.find (fun b => String.eqb (DbBackup.id b) i) l = None.
Proof.
  induction l as [|y l IH]; intros Hn; simpl; [reflexivity|].
  destruct (String.eqb_spec (DbBackup.id y) i).
  - exfalso. apply Hn. constructor. assumption.
  - apply IH. intros He. apply Hn. apply Exists_cons_tl. exact He.
Qed.

(** [createBackup] refuses a duplicate id and a backup of an agent that is
    not stored; otherwise [getBackup] finds the new row under its id, other
    ids still find what they found, and the agent's backup count grows by one
    while every other agent's stays. *)
Theorem createBackup_getBackup (db : SanctuaryDb) (b : DbBackup.t) :
  (createBackup db b = None <->
     (exists b0, b0 ∈ backups db /\ DbBackup.id b0 = DbBackup.id b) \/
     getAgent db (DbBackup.agent_id b) = None) /\
  forall db', createBackup db b = Some db' ->
    getBackup db' (DbBackup.id b) = Some b /\
    (forall i, i <> DbBackup.id b -> getBackup db' i = getBackup db i) /\
    getBackupCount db' (DbBackup.agent_id b) = (getBackupCount db (DbBackup.agent_id b) + 1)%Z /\
    (forall a, a <> DbBackup.agent_id b -> getBackupCount db' a = getBackupCount db a).
Proof.
  unfold createBackup.
  case_bool_decide as Hdup.
  - split; [|discriminate]. split; [intros _; left|intros _; reflexivity].
    apply Exists_exists in Hdup as (b0 & Hin & Hid). exists b0. split; [exact Hin|exact Hid].
  - destruct (getAgent db (DbBackup.agent_id b)) as [a|] eqn:Ea.
    + split.
      * split; [discriminate|]. intros [(b0 & Hin & Hid)|H]; [|discriminate H].
        exfalso. apply Hdup, Exists_exists. exists b0. split; [exact Hin|exact Hid].
      * intros db' E. injection E as <-. unfold getBackup, getBackupCount, set_backups. cbn.
        split; [|split; [|split]].
        -- rewrite find_app_single, find_id_absent by exact Hdup. rewrite String.eqb_refl. reflexivity.
        -- intros i Hi. rewrite find_app_single.
           destruct (List.find _ (backups db)); [reflexivity|].
           destruct (String.eqb_spec (DbBackup.id b) i); [congruence|reflexivity].
        -- rewrite filter_app, length_app. rewrite filter_cons_True by reflexivity. simpl. lia.
        -- intros a' Ha. rewrite filter_app, length_app. rewrite filter_cons_False by congruence.
           simpl. rewrite Nat.add_0_r. reflexivity.
    + split; [split; [intros _; right; reflexivity|intros _; reflexivity]|discriminate].
Qed.

(** [cleanupExpiredChallenges] deletes exactly the challenges whose
    [expires_at] is before [now]: a challenge stays, unchanged, if and only if
    it has not expired, and the count it returns plus the rows left is the
    size of the table before. *)
Theorem cleanupExpiredChallenges_spec (tbl : AuthChallenges) (now : Z) :
  let '(deleted, tbl') := cleanupExpiredChallenges tbl now in
  (forall nonce c, tbl' !! nonce = Some c <->
     tbl !! nonce = Some c /\ (now <= DbAuthChallenge.expires_at c)%Z) /\
  (deleted + Z.of_nat (size tbl') = Z.of_nat (size tbl))%Z.
Proof.
  unfold cleanupExpiredChallenges. lazy beta iota. split.
  - intros nonce c.
    pose proof (map_lookup_filter_Some (M := gmap string)
      (fun kv : string * DbAuthChallenge.t => ~ (DbAuthChallenge.expires_at kv.2 < now)%Z) tbl nonce c) as H.
    cbn in H. etransitivity; [exact H|]. split; intros [H1 H2]; split; auto; lia.
  - rewrite <- Nat2Z.inj_add. f_equal.
    unfold AuthChallenges in *.
    rewrite <- map_size_disj_union by apply map_disjoint_filter_complement.
    rewrite map_filter_union_complement. reflexivity.
Qed.

(** A challenge created under a fresh nonce is read back as given; marking it
    used sets [used] to 1 and keeps its nonce, agent and expiry; a second
    creation under the same nonce fails. *)
Theorem authChallenge_round_trip (tbl tbl' : AuthChallenges) (c : DbAuthChallenge.t) :
  createAuthChallenge tbl c = Some tbl' ->
  getAuthChallenge tbl' (DbAuthChallenge.nonce c) = Some c /\
  getAuthChallenge (markChallengeUsed tbl' (DbAuthChallenge.nonce c)) (DbAuthChallenge.nonce c)
    = Some (DbAuthChallenge.mk (DbAuthChallenge.nonce c) (DbAuthChallenge.agent_id c)
              (DbAuthChallenge.expires_at c) 1) /\
  (forall n, n <> DbAuthChallenge.nonce c ->
     getAuthChallenge tbl' n = getAuthChallenge tbl n) /\
  forall c', DbAuthChallenge.nonce c' = DbAuthChallenge.nonce c ->
     createAuthChallenge tbl' c' = None /\
     createAuthChallenge (markChallengeUsed tbl' (DbAuthChallenge.nonce c)) c' = None.
Proof.
  unfold createAuthChallenge. intros H.
  destruct (tbl !! DbAuthChallenge.nonce c) as [c0|] eqn:E; [discriminate H|].
  injection H as <-. unfold getAuthChallenge, markChallengeUsed, AuthChallenges in *.
  rewrite !lookup_insert_eq.
  split; [reflexivity|]. split; [reflexivity|]. split.
  - intros n Hn. rewrite lookup_insert_ne by congruence. reflexivity.
  - intros c' ->. rewrite !lookup_insert_eq. split; reflexivity.
Qed.

Lemma authChallenge_round_trip_witness :
  createAuthChallenge ∅ (DbAuthChallenge.mk "n1" addr_a 1700000300 0)
    = Some {[ "n1" := DbAuthChallenge.mk "n1" addr_a 1700000300 0 ]} /\
  getAuthChallenge (markChallengeUsed {[ "n1" := DbAuthChallenge.mk "n1" addr_a 1700000300 0 ]} "n1") "n1"
    = Some (DbAuthChallenge.mk "n1" addr_a 1700000300 1).
Proof.
  assert (E : createAuthChallenge ∅ (DbAuthChallenge.mk "n1" addr_a 1700000300 0)
    = Some {[ "n1" := DbAuthChallenge.mk "n1" addr_a 1700000300 0 ]}) by reflexivity.
  split; [exact E|].
  exact (proj1 (proj2 (authChallenge_round_trip _ _ _ E))).
Defined.

(** [upsertTrustScore] fails exactly for an agent that is not stored;
    otherwise the score is the agent's row of [trust_scores] (replacing any
    earlier one), other agents' scores and the other tables are kept, and
    GET /agents/:agentId/status reports it in its [trust] object. *)
Theorem upsertTrustScore_spec (isValidAddress : string -> bool) (normalizeAddress : string -> string)
    (db : SanctuaryDb) (score : DbTrustScore.t) :
  (upsertTrustScore db score = None <-> getAgent db (DbTrustScore.agent_id score) = None) /\
  forall db', upsertTrustScore db score = Some db' ->
    getTrustScore db' (DbTrustScore.agent_id score) = Some score /\
    (forall k, k <> DbTrustScore.agent_id score -> getTrustScore db' k = getTrustScore db k) /\
    users db' = users db /\ agents db' = agents db /\ heartbeats db' = heartbeats db /\
    backups db' = backups db /\ attestation_notes db' = attestation_notes db /\
    forall agentId, isValidAddress agentId = true ->
      normalizeAddress agentId = DbTrustScore.agent_id score ->
      match agentStatus isValidAddress normalizeAddress db' agentId with
      | AgentStatus _ _ _ _ _ _ trust _ _ _ =>
          trust = mkTrustView (DbTrustScore.score score) (DbTrustScore.level score)
                    (DbTrustScore.unique_attesters score) (Some (DbTrustScore.computed_at score))
      | AgentStatusFailed _ _ => False
      end.
Proof.
  unfold upsertTrustScore. destruct (getAgent db (DbTrustScore.agent_id score)) as [a|] eqn:Ea.
  - split; [split; discriminate|]. intros db' E. injection E as <-.
    unfold getTrustScore, set_trust_scores. cbn. rewrite lookup_insert_eq.
    split; [reflexivity|]. split.
    { intros k Hk. rewrite lookup_insert_ne by congruence. reflexivity. }
    do 5 (split; [reflexivity|]).
    intros agentId Hv Hn. unfold agentStatus. rewrite Hv. simpl. rewrite Hn.
    unfold getAgent, getTrustScore in *. cbn. rewrite Ea, lookup_insert_eq. reflexivity.
  - split; [tauto|]. discriminate.
Qed.

(** On a store the handlers can produce, GET /agents/:agentId/status reports
    a latest backup exactly when its backup count is positive, and that
    backup's sequence number is the count. *)
Theorem agentStatus_latest_matches_count (isValidAddress : string -> bool)
    (normalizeAddress : string -> string) (db : SanctuaryDb) (agentId : string) :
  reachable db ->
  match agentStatus isValidAddress normalizeAddress db agentId with
  | AgentStatus _ _ _ _ _ _ _ count latest _ =>
      (latest = None <-> count = 0%Z) /\
      forall v, latest = Some v -> latest_backup_seq v = count
  | AgentStatusFailed _ _ => True
  end.
Proof.
  intros Hreach. unfold agentStatus.
  destruct (isValidAddress agentId); [|exact I]. simpl.
  destruct (getAgent db (normalizeAddress agentId)); [|exact I].
  rewrite (getLatestBackup_reachable db _ Hreach).
  pose proof (reachable_seq_gapless db Hreach (normalizeAddress agentId)) as Hg.
  unfold getBackupCount. fold (backups_of db (normalizeAddress agentId)).
  destruct (last (backups_of db (normalizeAddress agentId))) as [b|] eqn:Hl.
  - split.
    + split; [discriminate|]. intros H0. exfalso.
      apply last_Some in Hl as [l' Hl']. rewrite Hl', length_app in H0. simpl in H0. lia.
    + intros v Hv. injection Hv as <-. cbn. exact (last_gapless_seq _ b Hg Hl).
  - split; [|discriminate]. split; [|reflexivity]. intros _.
    apply last_None in Hl. rewrite Hl. reflexivity.
Qed.

Lemma agentStatus_latest_matches_count_witness :
  reachable db_after_first_upload /\
  match agentStatus (fun _ => true) (fun s => s) db_after_first_upload "0xa1" with
  | AgentStatus _ _ _ _ _ _ _ count latest _ =>
      (latest = None <-> count = 0%Z) /\
      forall v, latest = Some v -> latest_backup_seq v = count
  | AgentStatusFailed _ _ => True
  end.
Proof.
  assert (H : reachable db_after_first_upload).
  { apply reach_upload. apply reach_init. }
  split; [exact H|].
  exact (agentStatus_latest_matches_count (fun _ => true) (fun s => s) db_after_first_upload "0xa1" H).
Defined.

(** ** Configuration *)









Lemma requireEnv_Returns (env : Env) (name v : string) :
  requireEnv env name = Returns v -> env name = Some v /\ v <> "".
Proof.
  unfold requireEnv. destruct (env name) as [s|]; [|discriminate].
  destruct (String.eqb_spec s ""); [discriminate|]. intros E. injection E as <-. auto.
Qed.

(** [loadConfig] succeeds only with [JWT_SECRET], [GITHUB_CLIENT_ID] and
    [GITHUB_CLIENT_SECRET] set to non-empty values, which it copies into
    the configuration as they are. *)
Theorem loadConfig_required (env : Env) (config : ConfigTs.Config) :
  loadConfig env = Returns config ->
  env "JWT_SECRET" = Some (ConfigTs.jwtSecret config) /\ ConfigTs.jwtSecret config <> "" /\
  env "GITHUB_CLIENT_ID" = Some (ConfigTs.githubClientId config) /\ ConfigTs.githubClientId config <> "" /\
  env "GITHUB_CLIENT_SECRET" = Some (ConfigTs.githubClientSecret config) /\
  ConfigTs.githubClientSecret config <> "".
Proof.
  intros H. unfold loadConfig in H.
  repeat (match type of H with
          | res_bind ?r _ = _ => let E := fresh "E" in destruct r eqn:E; cbn [res_bind] in H;
                                   [|discriminate H]
          end).
  injection H as <-. cbn.
  repeat match goal with
         | E : requireEnv _ _ = Returns _ |- _ => apply requireEnv_Returns in E as [? ?]
         end.
  repeat split; assumption.
Qed.

(** With only the three required variables set, [loadConfig] returns the
    defaults of [config.ts] for every other field, and [validateConfig]
    finds nothing to report (the default environment is development). *)
Theorem loadConfig_defaults (env : Env) (jwt clientId clientSecret : string) :
  (forall x, x <> "JWT_SECRET" -> x <> "GITHUB_CLIENT_ID" -> x <> "GITHUB_CLIENT_SECRET" -> env x = None) ->
  env "JWT_SECRET" = Some jwt -> jwt <> "" ->
  env "GITHUB_CLIENT_ID" = Some clientId -> clientId <> "" ->
  env "GITHUB_CLIENT_SECRET" = Some clientSecret -> clientSecret <> "" ->
  loadConfig env = Returns (ConfigTs.mkConfig 3000 "0.0.0.0" "development" "" "./sanctuary.db"
                              jwt 86400 clientId clientSecret "https://sepolia.base.org" "" "" 84532
                              "" "https://node2.irys.xyz" 300 30 5242880) /\
  validateConfig (ConfigTs.mkConfig 3000 "0.0.0.0" "development" "" "./sanctuary.db"
                    jwt 86400 clientId clientSecret "https://sepolia.base.org" "" "" 84532
                    "" "https://node2.irys.xyz" 300 30 5242880) = [].
Proof.
  intros Hrest Hj Hj' Hi Hi' Hs Hs'.
  split; [|reflexivity].
  unfold loadConfig, optionalEnvInt, optionalEnv, requireEnv.
  rewrite Hj, Hi, Hs.
  apply String.eqb_neq in Hj', Hi', Hs'. rewrite Hj', Hi', Hs'.
  rewrite !Hrest by discriminate. reflexivity.
Qed.

Lemma env_required_only_rest (x : string) :
  x <> "JWT_SECRET" -> x <> "GITHUB_CLIENT_ID" -> x <> "GITHUB_CLIENT_SECRET" ->
  env_required_only x = None.
Proof.
  intros H1 H2 H3. unfold env_required_only.
  apply String.eqb_neq in H1, H2, H3. rewrite H1, H2, H3. reflexivity.
Qed.

Lemma loadConfig_defaults_witness :
  loadConfig env_required_only =
    Returns (ConfigTs.mkConfig 3000 "0.0.0.0" "development" "" "./sanctuary.db"
               "a-secret-of-more-than-thirty-two-chars" 86400 "client-id" "client-secret"
               "https://sepolia.base.org" "" "" 84532 "" "https://node2.irys.xyz" 300 30 5242880).
Proof.
  apply (loadConfig_defaults env_required_only "a-secret-of-more-than-thirty-two-chars"
           "client-id" "client-secret" env_required_only_rest);
    first [reflexivity | discriminate].
Defined.

Lemma loadConfig_required_witness :
  loadConfig env_required_only =
    Returns (ConfigTs.mkConfig 3000 "0.0.0.0" "development" "" "./sanctuary.db"
               "a-secret-of-more-than-thirty-two-chars" 86400 "client-id" "client-secret"
               "https://sepolia.base.org" "" "" 84532 "" "https://node2.irys.xyz" 300 30 5242880) /\
  env_required_only "JWT_SECRET" = Some "a-secret-of-more-than-thirty-two-chars".
Proof.
  assert (E : loadConfig env_required_only =
    Returns (ConfigTs.mkConfig 3000 "0.0.0.0" "development" "" "./sanctuary.db"
               "a-secret-of-more-than-thirty-two-chars" 86400 "client-id" "client-secret"
               "https://sepolia.base.org" "" "" 84532 "" "https://node2.irys.xyz" 300 30 5242880))
    by (vm_compute; reflexivity).
  split; [exact E|]. exact (proj1 (loadConfig_required _ _ E)).
Defined.


(** The database singleton: [initDb] opens the given path only when no
    database is open, and afterwards returns the same object whatever path it
    is given; [getDb] returns that object, and after [closeDb] it throws,
    while the next [initDb] creates a new object. *)
Theorem db_singleton_lifecycle (st : DbSingleton) (dbPath dbPath' dbPath'' : string) :
  singleton_wf st ->
  let '(h, st1) := initDb st dbPath in
  (db_slot st = None -> handle_path h = dbPath) /\
  getDb st1 = Returns h /\
  initDb st1 dbPath' = (h, st1) /\
  singleton_wf st1 /\
  getDb (closeDb st1) = Threw "Database not initialized. Call initDb() first." /\
  fst (initDb (closeDb st1) dbPath'') <> h.
Proof.
  unfold singleton_wf, initDb, getDb, closeDb.
  destruct st as [[h0|] n]; cbn; intros Hwf.
  - split; [discriminate|]. do 4 (split; [first [reflexivity | exact Hwf]|]).
    intros E. rewrite <- E in Hwf. cbn in Hwf. lia.
  - split; [reflexivity|]. split; [reflexivity|]. split; [reflexivity|]. split; [lia|].
    split; [reflexivity|]. intros E. injection E as _ E. lia.
Qed.

Lemma db_singleton_lifecycle_witness :
  singleton_wf (mkDbSingleton None 0) /\
  let '(h, st1) := initDb (mkDbSingleton None 0) "./sanctuary.db" in
  (db_slot (mkDbSingleton None 0) = None -> handle_path h = "./sanctuary.db") /\
  getDb st1 = Returns h /\
  initDb st1 "/tmp/other.db" = (h, st1) /\
  singleton_wf st1 /\
  getDb (closeDb st1) = Threw "Database not initialized. Call initDb() first." /\
  fst (initDb (closeDb st1) "./sanctuary.db") <> h.
Proof.
  assert (H : singleton_wf (mkDbSingleton None 0)) by exact I.
  split; [exact H|].
  exact (db_singleton_lifecycle (mkDbSingleton None 0) "./sanctuary.db" "/tmp/other.db" "./sanctuary.db" H).
Defined.

(** ** The daily limit's wait *)

(** When the daily limit applies, the wait it reports is the remaining
    part of the day rounded up to whole hours: at least 1, and at most 24
    unless the latest backup was received after [now] (a clock going back). *)
Theorem daily_limit_hours (db : SanctuaryDb) (agentId : string) (now h : Z) :
  daily_limit db agentId now = Some h ->
  exists b, getLatestBackup db agentId = Some b /\
    (now - DbBackup.received_at b < SECONDS_PER_DAY)%Z /\
    ((h - 1) * 3600 < SECONDS_PER_DAY - (now - DbBackup.received_at b) <= h * 3600)%Z /\
    (1 <= h)%Z /\
    ((h <= 24)%Z <-> (DbBackup.received_at b <= now)%Z).
Proof.
  unfold daily_limit. destruct (getLatestBackup db agentId) as [b|]; [|discriminate].
  destruct (Z.ltb_spec (now - DbBackup.received_at b) SECONDS_PER_DAY) as [Hlt|]; [|discriminate].
  intros E. injection E as <-. exists b. split; [reflexivity|]. split; [exact Hlt|].
  unfold ceil_div, SECONDS_PER_DAY in *.
  set (r := (24 * 60 * 60 - (now - DbBackup.received_at b))%Z).
  assert (Hr : (0 < r)%Z) by (unfold r; lia).
  pose proof (Z.div_mod (- r) 3600 ltac:(lia)) as Hdm.
  pose proof (Z.mod_pos_bound (- r) 3600 ltac:(lia)) as Hb.
  assert (((- (- r / 3600)) - 1) * 3600 < r <= (- (- r / 3600)) * 3600)%Z as Hbounds by lia.
  split; [exact Hbounds|]. split; [lia|].
  unfold r in Hbounds. split; intros; lia.
Qed.

Lemma daily_limit_hours_witness :
  daily_limit db_after_first_upload "0xa1" 1700003600 = Some 23%Z /\
  exists b, getLatestBackup db_after_first_upload "0xa1" = Some b /\
    (1700003600 - DbBackup.received_at b < SECONDS_PER_DAY)%Z /\
    ((23 - 1) * 3600 < SECONDS_PER_DAY - (1700003600 - DbBackup.received_at b) <= 23 * 3600)%Z /\
    (1 <= 23)%Z /\
    ((23 <= 24)%Z <-> (DbBackup.received_at b <= 1700003600)%Z).
Proof.
  assert (E : daily_limit db_after_first_upload "0xa1" 1700003600 = Some 23%Z) by (vm_compute; reflexivity).
  split; [exact E|]. exact (daily_limit_hours _ _ _ _ E).
Defined.

(** ** Users and agents *)

(** [createUser] refuses a [github_id] already stored; otherwise the user
    is found by [getUser] under its id and [getUserByUsername] finds a user
    with its name, the other tables being kept. *)
Theorem createUser_spec (db : SanctuaryDb) (user : DbUser.t) :
  (createUser db user = None <-> getUser db (DbUser.github_id user) <> None) /\
  forall db', createUser db user = Some db' ->
    getUser db' (DbUser.github_id user) = Some user /\
    (forall k, k <> DbUser.github_id user -> getUser db' k = getUser db k) /\
    (exists u, getUserByUsername db' (DbUser.github_username user) = Some u /\
               DbUser.github_username u = DbUser.github_username user) /\
    agents db' = agents db /\ heartbeats db' = heartbeats db /\ backups db' = backups db /\
    trust_scores db' = trust_scores db /\ attestation_notes db' = attestation_notes db.
Proof.
  unfold createUser, getUser. destruct (users db !! DbUser.github_id user) as [u0|] eqn:E.
  - split; [split; [intros _; discriminate|reflexivity]|]. discriminate.
  - split; [split; [discriminate|intros H; contradiction]|].
    intros db' H. injection H as <-. cbn. rewrite lookup_insert_eq.
    split; [reflexivity|]. split.
    { intros k Hk. rewrite lookup_insert_ne by congruence. reflexivity. }
    split; [|tauto].
    unfold getUserByUsername. cbn.
    destruct (filter (fun u => DbUser.github_username u = DbUser.github_username user)
                (map snd (map_to_list (<[DbUser.github_id user := user]> (users db))))) as [|u l] eqn:F.
    + exfalso.
      assert (Hin : user ∈ filter (fun u => DbUser.github_username u = DbUser.github_username user)
                     (map snd (map_to_list (<[DbUser.github_id user := user]> (users db))))).
      { apply list_elem_of_filter. split; [reflexivity|].
        change (map snd ?l) with (snd <$> l). apply list_elem_of_fmap.
        exists (DbUser.github_id user, user). split; [reflexivity|].
        apply elem_of_map_to_list. apply lookup_insert_eq. }
      rewrite F in Hin. apply not_elem_of_nil in Hin. exact Hin.
    + exists u. split; [reflexivity|].
      assert (Hu : u ∈ u :: l) by (apply elem_of_cons; left; reflexivity).
      rewrite <- F in Hu. apply list_elem_of_filter in Hu. tauto.
Qed.

(** [createAgent] stores the agent so that both [getAgent] (by address) and
    [getAgentByGithubId] (by owner) return it; no other agent's row
    changes. *)
Theorem createAgent_lookups (db db' : SanctuaryDb) (agent : DbAgent.t) :
  createAgent db agent = Some db' ->
  getAgent db' (DbAgent.agent_id agent) = Some agent /\
  getAgentByGithubId db' (DbAgent.github_id agent) = Some agent /\
  (forall k, k <> DbAgent.agent_id agent -> getAgent db' k = getAgent db k) /\
  users db' = users db /\ backups db' = backups db.
Proof.
  unfold createAgent.
  destruct (getAgent db (DbAgent.agent_id agent)) as [?|] eqn:Ea; [discriminate|].
  destruct (getAgentByGithubId db (DbAgent.github_id agent)) as [?|] eqn:Eg; [discriminate|].
  destruct (getUser db (DbAgent.github_id agent)) as [?|]; [|discriminate].
  intros H. injection H as <-.
  unfold getAgent, set_agents in *. cbn. rewrite lookup_insert_eq.
  split; [reflexivity|]. split.
  - unfold getAgentByGithubId in *. cbn.
    assert (Hnil : filter (fun a => DbAgent.github_id a = DbAgent.github_id agent)
                     ((map_to_list (agents db)).*2) = []).
    { change (map snd ?l) with (snd <$> l) in Eg. destruct (filter _ _); [reflexivity|discriminate Eg]. }
    assert (Hp : filter (fun a => DbAgent.github_id a = DbAgent.github_id agent)
                   (map snd (map_to_list (<[DbAgent.agent_id agent := agent]> (agents db)))) ≡ₚ [agent]).
    { change (map snd ?l) with (snd <$> l).
      rewrite (map_to_list_insert (agents db) (DbAgent.agent_id agent) agent Ea).
      rewrite fmap_cons, filter_cons_True by reflexivity. rewrite Hnil. reflexivity. }
    symmetry in Hp. apply Permutation_length_1_inv in Hp. rewrite Hp. reflexivity.
  - split; [|tauto]. intros k Hk. rewrite lookup_insert_ne by congruence. reflexivity.
Qed.

Lemma createAgent_lookups_witness :
  createAgent db_user_only agent_of_gh1 = Some (set_agents db_user_only {[ addr_a := agent_of_gh1 ]}) /\
  getAgentByGithubId (set_agents db_user_only {[ addr_a := agent_of_gh1 ]}) "gh1" = Some agent_of_gh1.
Proof.
  assert (E : createAgent db_user_only agent_of_gh1 = Some (set_agents db_user_only {[ addr_a := agent_of_gh1 ]}))
    by (vm_compute; reflexivity).
  split; [exact E|].
  exact (proj1 (proj2 (createAgent_lookups _ _ _ E))).
Defined.

(** ** GET /agents/:agentId and its status route *)

(** The two agent routes fail alike: 400 for an id that is not an address,
    404 when no agent is stored under the normalized id; otherwise both
    report the stored agent's identity fields, and the owner's GitHub
    username when the user row exists. *)
Theorem agentInfo_agentStatus_agree (isValidAddress : string -> bool)
    (normalizeAddress : string -> string) (db : SanctuaryDb) (agentId : string) :
  (isValidAddress agentId = false ->
     agentInfo isValidAddress normalizeAddress db agentId = AgentInfoFailed 400 "Invalid agent ID" /\
     agentStatus isValidAddress normalizeAddress db agentId = AgentStatusFailed 400 "Invalid agent ID") /\
  (isValidAddress agentId = true -> getAgent db (normalizeAddress agentId) = None ->
     agentInfo isValidAddress normalizeAddress db agentId = AgentInfoFailed 404 "Agent not found" /\
     agentStatus isValidAddress normalizeAddress db agentId = AgentStatusFailed 404 "Agent not found") /\
  (forall a, isValidAddress agentId = true -> getAgent db (normalizeAddress agentId) = Some a ->
     let user := option_map DbUser.github_username (getUser db (DbAgent.github_id a)) in
     agentInfo isValidAddress normalizeAddress db agentId
       = AgentInfo (DbAgent.agent_id a) user (DbAgent.recovery_pubkey a) (DbAgent.manifest_hash a)
           (DbAgent.manifest_version a) (DbAgent.registered_at a) (DbAgent.status a) /\
     match agentStatus isValidAddress normalizeAddress db agentId with
     | AgentStatus id u mh mv ra st _ _ _ _ =>
         id = DbAgent.agent_id a /\ u = user /\ mh = DbAgent.manifest_hash a /\
         mv = DbAgent.manifest_version a /\ ra = DbAgent.registered_at a /\ st = DbAgent.status a
     | AgentStatusFailed _ _ => False
     end).
Proof.
  unfold agentInfo, agentStatus. split; [|split].
  - intros ->. split; reflexivity.
  - intros -> E. simpl. rewrite E. split; reflexivity.
  - intros a Hv E. rewrite Hv. simpl. rewrite E. split; [reflexivity|]. repeat split.
Qed.
